(** * Academic Record Service (acad-service/main.py)

    A shallow embedding of the FastAPI handlers of [src/acad-service/main.py]
    and of the relational queries they issue, followed by the properties of
    the IPS calculator, the enrollment listing and the two insert handlers.

    Modelling conventions.
    - The four tables are lists of rows.  The order of a list has no
      meaning to the store: a query without ORDER BY may return its rows in
      any order.  [ips_query] lists the rows that the query of the IPS
      calculator selects; the handler is a function of the list that the
      store returned, which is some permutation of them
      ([ips_query_returns]).
    - Python [float] is IEEE-754 binary64: Rocq's primitive [float], with
      the operations of [PrimFloat].  Python [int] is [Z].  A text is the
      UTF-8 encoding of a Python [str].
    - A handler returns either its payload ([Ok data], the JSON object with
      [success] set and [data]) or the [HTTPException] it raises.
    - The store is PostgreSQL behind SQLAlchemy and psycopg2.  The driver
      refuses a text with a NUL character.  The store casts a value to the
      type of its column (a text longer than a [String(n)] column is refused,
      unless what exceeds [n] characters is blanks, which are cut off),
      enforces primary and foreign keys, applies a statement atomically and
      sorts NULLs last.  Texts are compared byte-wise.  An insert handler
      commits and then reloads the row by its primary key ([db.refresh]);
      when that fails the answer is an error although the row is stored.
      Failures of the connection to the store are outside the model. *)

From Stdlib Require Import ZArith Lia.
From Stdlib Require Import PrimFloat SpecFloat FloatOps.
From stdpp Require Import base option list sorting strings gmap.

Local Open Scope string_scope.
Local Open Scope list_scope.
Local Open Scope Z_scope.

(** ** Python numbers *)

(** [float(z)] for a Python int: correctly rounded (ties to even), and
    [OverflowError] (here [None]) when the rounded value would not be finite,
    that is from [2^1024 - 2^970] on. *)
Definition float_overflow_threshold : Z :=
  Eval vm_compute in 2 ^ 1024 - 2 ^ 970.

(** The double nearest to [z]. *)
Definition float_of_Z (z : Z) : float :=
  SF2Prim (binary_normalize prec emax z 0 false).

Definition int_to_float (z : Z) : option float :=
  if Z.abs z <? float_overflow_threshold
  then Some (float_of_Z z)
  else None.

(** The quotient [n / d] rounded to the nearest integer, ties to even
    ([0 < d]). *)
Definition round_half_even_div (n d : Z) : Z :=
  let q := n / d in
  let r := n mod d in
  match Z.compare (2 * r) d with
  | Lt => q
  | Gt => q + 1
  | Eq => if Z.even q then q else q + 1
  end.

(** The decimal [(-1)^s * n * 10^-k] read back as the nearest double. *)
Definition decimal_to_float (s : bool) (n : Z) (k : positive) : float :=
  match n with
  | Zpos p =>
      SF2Prim (SFdiv prec emax (S754_finite s p 0)
                 (S754_finite false (Pos.pow 10 k) 0))
  | _ => if s then neg_zero else zero
  end.

(** [round(x, 2)] on a float: nan and the infinities round to themselves;
    a finite [x] is rounded, from its exact binary value and ties to even,
    to two digits after the point, and that decimal is converted back to the
    nearest double. *)
Definition round2 (x : float) : float :=
  match Prim2SF x with
  | S754_finite s m e =>
      let n := match e with
               | Zneg p => round_half_even_div (Zpos m * 100) (2 ^ Zpos p)
               | _ => Zpos m * 100 * 2 ^ e
               end in
      decimal_to_float s n 2
  | _ => x
  end.

(** A Python number as the IPS handler holds it: [ips] is the int [0] on the
    guarded branch and a float otherwise. *)
Inductive pynum :=
  | PyInt (z : Z)
  | PyFloat (f : float).

(** [round(v, 2)]: an int rounds to itself. *)
Definition py_round2 (v : pynum) : pynum :=
  match v with
  | PyInt z => PyInt z
  | PyFloat f => PyFloat (round2 f)
  end.

(** Truth value of an [Optional[int]]: [None] and [0] are false. *)
Definition truthy (o : option Z) : bool :=
  match o with
  | None => false
  | Some z => negb (z =? 0)
  end.

(** ** Exceptions and HTTP outcomes *)

(** The exceptions other than [HTTPException] that a handler body can meet. *)
Inductive error :=
  | OverflowError          (* int too large to convert to float *)
  | ZeroDivisionError      (* float division by zero *)
  | ValueError             (* driver: a text contains NUL *)
  | DataError              (* a value does not fit its column *)
  | UniqueViolation        (* IntegrityError: duplicate primary key *)
  | ForeignKeyViolation    (* IntegrityError: missing referenced row *)
  | InvalidRequestError.   (* db.refresh: no row with the instance's key *)

(** The [detail] of an HTTP error: a literal message, [str(e)] of a caught
    exception, or the field locations of a request validation error. *)
Inductive detail :=
  | Msg (s : string)
  | StrOf (e : error)
  | Invalid (loc : list string).

Inductive raised :=
  | HTTPException (status_code : Z) (d : detail)
  | Exception (e : error).

(** What a handler body evaluates to. *)
Inductive result (A : Type) :=
  | Return (a : A)
  | Raise (r : raised).
Arguments Return {A} a.
Arguments Raise {A} r.

Definition bind {A B} (m : result A) (k : A -> result B) : result B :=
  match m with
  | Return a => k a
  | Raise r => Raise r
  end.

Notation "'do' x <- m ; k" := (bind m (fun x => k))
  (at level 10, x name, m at level 100, k at level 200,
   format "'do'  x  <-  m ;  '/' k").

(** What the client receives. *)
Inductive response (A : Type) :=
  | Ok (data : A)
  | Http (status_code : Z) (d : detail).
Arguments Ok {A} data.
Arguments Http {A} status_code d.

(** [except HTTPException: raise] followed by
    [except Exception as e: raise HTTPException(status_code=500, detail=str(e))]. *)
Definition reraise_http {A} (m : result A) : response A :=
  match m with
  | Return a => Ok a
  | Raise (HTTPException status_code d) => Http status_code d
  | Raise (Exception e) => Http 500 (StrOf e)
  end.

(** Only [except Exception as e: raise HTTPException(500, str(e))]: an
    [HTTPException] is an [Exception] too, so its status is not kept. *)
Definition catch_all {A} (m : result A) : response A :=
  match m with
  | Return a => Ok a
  | Raise (HTTPException _ d) => Http 500 d
  | Raise (Exception e) => Http 500 (StrOf e)
  end.

(** ** Tables *)

Module Mahasiswa.
Record t := mk {
  nim : string;               (* String(10), primary key *)
  nama : string;              (* String(100), not null *)
  jurusan : option string;    (* String(50) *)
  angkatan : option Z         (* Integer *)
}.
End Mahasiswa.

Module MataKuliah.
Record t := mk {
  kode_mk : string;           (* String(10), primary key *)
  nama_mk : string;           (* String(100), not null *)
  sks : Z                     (* Integer, not null *)
}.
End MataKuliah.

Module KRS.
Record t := mk {
  id_krs : Z;                 (* BigInteger, primary key, autoincrement *)
  nim : string;               (* -> mahasiswa.nim, not null *)
  kode_mk : string;           (* -> mata_kuliah.kode_mk, not null *)
  nilai : option string;      (* -> bobot_nilai.nilai *)
  semester : option Z         (* Integer *)
}.
End KRS.

Module BobotNilai.
Record t := mk {
  nilai : string;             (* String(2), primary key *)
  bobot : float               (* Float, not null *)
}.
End BobotNilai.

Record DB := {
  mahasiswa : list Mahasiswa.t;
  mata_kuliah : list MataKuliah.t;
  krs : list KRS.t;
  bobot_nilai : list BobotNilai.t
}.

(** ** Relational operators *)

(** Cross product, in the order of a nested loop over [l] then [r]. *)
Definition cross {A B} (l : list A) (r : list B) : list (A * B) :=
  a ← l; pair a <$> r.

(** Inner join: the pairs of the cross product that satisfy the ON clause. *)
Definition join {A B} (on : A * B -> Prop) `{forall p, Decision (on p)}
    (l : list A) (r : list B) : list (A * B) :=
  filter on (cross l r).

(** [ORDER BY KRS.semester, MataKuliah.kode_mk]: both ascending, NULL
    semesters last, codes compared byte-wise. *)
Definition semester_le (a b : option Z) : Prop :=
  match a, b with
  | Some x, Some y => x <= y
  | _, None => True
  | None, Some _ => False
  end.

Definition key_le (k1 k2 : option Z * string) : Prop :=
  semester_le k1.1 k2.1 /\ (semester_le k2.1 k1.1 -> String.le k1.2 k2.2).

#[global] Instance semester_le_dec a b : Decision (semester_le a b).
Proof. destruct a, b; simpl; apply _. Defined.

#[global] Instance key_le_dec k1 k2 : Decision (key_le k1 k2).
Proof. unfold key_le. apply _. Defined.

Definition order_by {A} (key : A -> option Z * string) (rows : list A) : list A :=
  merge_sort (fun r1 r2 => key_le (key r1) (key r2)) rows.

(** ** IPS calculator: [POST /api/acad/calculate-ips] *)

Module IPSRequest.
Record t := mk { nim : string; semester : Z }.
End IPSRequest.

(** A row of the query: [MataKuliah.sks, BobotNilai.bobot,
    MataKuliah.nama_mk, KRS.nilai]. *)
Module IPSRow.
Record t := mk { sks : Z; bobot : float; nama_mk : string; nilai : option string }.
End IPSRow.

Module IPSDetail.
Record t := mk {
  mata_kuliah : string;
  sks : Z;
  nilai : option string;
  bobot : float;
  bobot_x_sks : float
}.
End IPSDetail.

Module IPSData.
Record t := mk {
  nim : string;
  nama : string;
  semester : Z;
  ips : pynum;
  total_sks : Z;
  total_bobot : float;
  details : list IPSDetail.t
}.
End IPSData.

(** The rows selected by
    [krs JOIN mata_kuliah ON krs.kode_mk = mata_kuliah.kode_mk
         JOIN bobot_nilai ON krs.nilai = bobot_nilai.nilai
     WHERE krs.nim = :nim AND krs.semester = :semester];
    a NULL [nilai] or [semester] equals nothing.  The list has each selected
    row as often as the query selects it; its order is that of a nested
    loop, one of the orders in which the store may return the rows. *)
Definition ips_query (db : DB) (nim : string) (semester : Z) : list IPSRow.t :=
  (fun r : KRS.t * MataKuliah.t * BobotNilai.t =>
     IPSRow.mk (MataKuliah.sks r.1.2) (BobotNilai.bobot r.2)
               (MataKuliah.nama_mk r.1.2) (KRS.nilai r.1.1)) <$>
  filter (fun r : KRS.t * MataKuliah.t * BobotNilai.t =>
            KRS.nim r.1.1 = nim /\ KRS.semester r.1.1 = Some semester)
    (join (fun r : KRS.t * MataKuliah.t * BobotNilai.t =>
             KRS.nilai r.1.1 = Some (BobotNilai.nilai r.2))
       (join (fun p : KRS.t * MataKuliah.t =>
                KRS.kode_mk p.1 = MataKuliah.kode_mk p.2)
          (krs db) (mata_kuliah db))
       (bobot_nilai db)).

(** The query has no ORDER BY: [.all()] may return the selected rows in any
    order. *)
Definition ips_query_returns (db : DB) (nim : string) (semester : Z)
    (results : list IPSRow.t) : Prop :=
  results ≡ₚ ips_query db nim semester.

(** [x * n] and [x / n] for a float [x] and an int [n]: the int is converted
    first, which is where [OverflowError] can come from; a division by the
    int [0] (the only int that converts to [0.0]) raises
    [ZeroDivisionError]. *)
Definition float_mul_int (x : float) (n : Z) : result float :=
  match int_to_float n with
  | Some y => Return (x * y)%float
  | None => Raise (Exception OverflowError)
  end.

Definition float_div_int (x : float) (n : Z) : result float :=
  match int_to_float n with
  | Some y =>
      if n =? 0 then Raise (Exception ZeroDivisionError)
      else Return (x / y)%float
  | None => Raise (Exception OverflowError)
  end.

(** The accumulators of the loop.  [total_bobot] starts as the int [0]; the
    first [+=] turns it into a float, and [0 + x] is [0.0 + x]. *)
Record accum := {
  total_bobot : float;
  total_sks : Z;
  details : list IPSDetail.t
}.

Definition accum0 : accum :=
  {| total_bobot := zero; total_sks := 0; details := [] |}.

Fixpoint ips_loop (results : list IPSRow.t) (acc : accum) : result accum :=
  match results with
  | [] => Return acc
  | row :: rest =>
      let sks := IPSRow.sks row in
      let bobot := IPSRow.bobot row in
      let nama_mk := IPSRow.nama_mk row in
      let nilai := IPSRow.nilai row in
      do bobot_x_sks <- float_mul_int bobot sks;
      ips_loop rest
        {| total_bobot := (total_bobot acc + bobot_x_sks)%float;
           total_sks := total_sks acc + sks;
           details := details acc ++
             [IPSDetail.mk nama_mk sks nilai bobot (round2 bobot_x_sks)] |}
  end.

(** [db.query(Mahasiswa).filter(Mahasiswa.nim == nim).first()] *)
Definition first_mahasiswa (db : DB) (nim : string) : option Mahasiswa.t :=
  head (filter (fun m => Mahasiswa.nim m = nim) (mahasiswa db)).

(** The body of the handler; [results] is the list that [.all()] returned
    for the query above. *)
Definition calculate_ips_body (request : IPSRequest.t) (db : DB)
    (results : list IPSRow.t) : result IPSData.t :=
  match results with
  | [] => Raise (HTTPException 404 (Msg "No KRS data found for this semester"))
  | _ =>
      do acc <- ips_loop results accum0;
      do ips <- (if 0 <? total_sks acc
                 then do q <- float_div_int (total_bobot acc) (total_sks acc);
                      Return (PyFloat q)
                 else Return (PyInt 0));
      let mhs := first_mahasiswa db (IPSRequest.nim request) in
      let nama_mahasiswa :=
        match mhs with Some m => Mahasiswa.nama m | None => "Unknown" end in
      Return {| IPSData.nim := IPSRequest.nim request;
                IPSData.nama := nama_mahasiswa;
                IPSData.semester := IPSRequest.semester request;
                IPSData.ips := py_round2 ips;
                IPSData.total_sks := total_sks acc;
                IPSData.total_bobot := round2 (total_bobot acc);
                IPSData.details := details acc |}
  end.

Definition calculate_ips (request : IPSRequest.t) (db : DB)
    (results : list IPSRow.t) : response IPSData.t :=
  reraise_http (calculate_ips_body request db results).

(** ** Enrollment listing: [GET /api/acad/krs/{nim}] *)

Module KRSDetail.
Record t := mk {
  id_krs : Z;
  nim : string;
  nama_mahasiswa : string;
  kode_mk : string;
  nama_mk : string;
  sks : Z;
  nilai : option string;
  semester : option Z
}.
End KRSDetail.

Definition krs_row (r : KRS.t * Mahasiswa.t * MataKuliah.t) : KRSDetail.t :=
  {| KRSDetail.id_krs := KRS.id_krs r.1.1;
     KRSDetail.nim := KRS.nim r.1.1;
     KRSDetail.nama_mahasiswa := Mahasiswa.nama r.1.2;
     KRSDetail.kode_mk := MataKuliah.kode_mk r.2;
     KRSDetail.nama_mk := MataKuliah.nama_mk r.2;
     KRSDetail.sks := MataKuliah.sks r.2;
     KRSDetail.nilai := KRS.nilai r.1.1;
     KRSDetail.semester := KRS.semester r.1.1 |}.

(** [krs JOIN mahasiswa ON krs.nim = mahasiswa.nim
         JOIN mata_kuliah ON krs.kode_mk = mata_kuliah.kode_mk
     WHERE krs.nim = :nim] *)
Definition krs_query (db : DB) (nim : string) : list (KRS.t * Mahasiswa.t * MataKuliah.t) :=
  filter (fun r : KRS.t * Mahasiswa.t * MataKuliah.t => KRS.nim r.1.1 = nim)
    (join (fun r : KRS.t * Mahasiswa.t * MataKuliah.t =>
             KRS.kode_mk r.1.1 = MataKuliah.kode_mk r.2)
       (join (fun p : KRS.t * Mahasiswa.t => KRS.nim p.1 = Mahasiswa.nim p.2)
          (krs db) (mahasiswa db))
       (mata_kuliah db)).

Definition krs_sort_key (r : KRS.t * Mahasiswa.t * MataKuliah.t) : option Z * string :=
  (KRS.semester r.1.1, MataKuliah.kode_mk r.2).

Definition get_krs (nim : string) (semester : option Z) (db : DB)
    : response (list KRSDetail.t) :=
  catch_all
    (let query := krs_query db nim in
     let query :=
       if truthy semester
       then filter (fun r : KRS.t * Mahasiswa.t * MataKuliah.t =>
                      KRS.semester r.1.1 = semester) query
       else query in
     let results := order_by krs_sort_key query in
     Return (krs_row <$> results)).

(** ** Column types and constraints enforced by the store *)

(** The store counts the length of a text in characters.  In UTF-8 the
    bytes [10xxxxxx] continue a character; every other byte starts one. *)
Definition is_continuation (c : Ascii.ascii) : bool :=
  let n := Ascii.N_of_ascii c in
  ((128 <=? n) && (n <? 192))%N.

Fixpoint char_length (s : string) : nat :=
  match s with
  | EmptyString => O
  | String c s' =>
      if is_continuation c then char_length s' else S (char_length s')
  end.

(** The first [n] characters of [s], and what follows them. *)
Fixpoint split_chars (n : nat) (s : string) : string * string :=
  match s with
  | EmptyString => (EmptyString, EmptyString)
  | String c s' =>
      if is_continuation c
      then let p := split_chars n s' in (String c p.1, p.2)
      else match n with
           | O => (EmptyString, s)
           | S n' => let p := split_chars n' s' in (String c p.1, p.2)
           end
  end.

Fixpoint all_blank (s : string) : bool :=
  match s with
  | EmptyString => true
  | String c s' => (Ascii.N_of_ascii c =? 32)%N && all_blank s'
  end.

Fixpoint has_nul (s : string) : bool :=
  match s with
  | EmptyString => false
  | String c s' => (Ascii.N_of_ascii c =? 0)%N || has_nul s'
  end.

(** The value that a [String(n)] column takes for the text [s]: [s] itself
    when it has at most [n] characters; its first [n] characters when all
    that follows them is blanks; none ([None]: value too long) otherwise. *)
Definition store_varchar (n : nat) (s : string) : option string :=
  let p := split_chars n s in
  if all_blank p.2 then Some p.1 else None.

Definition fits_integer (z : Z) : bool :=
  (- 2 ^ 31 <=? z) && (z <? 2 ^ 31).

(** The value that an [Integer] column takes: none when out of range. *)
Definition store_integer (z : Z) : option Z :=
  if fits_integer z then Some z else None.

(** A nullable column: NULL is stored as NULL. *)
Definition store_null {A} (store : A -> option A) (v : option A)
    : option (option A) :=
  match v with
  | None => Some None
  | Some a => Some <$> store a
  end.

(** The row that the store holds for the values of an INSERT INTO
    mahasiswa. *)
Definition store_mahasiswa (row : Mahasiswa.t) : result Mahasiswa.t :=
  if has_nul (Mahasiswa.nim row) || has_nul (Mahasiswa.nama row)
     || from_option has_nul false (Mahasiswa.jurusan row)
  then Raise (Exception ValueError)
  else
    match store_varchar 10 (Mahasiswa.nim row),
          store_varchar 100 (Mahasiswa.nama row),
          store_null (store_varchar 50) (Mahasiswa.jurusan row),
          store_null store_integer (Mahasiswa.angkatan row) with
    | Some nim, Some nama, Some jurusan, Some angkatan =>
        Return (Mahasiswa.mk nim nama jurusan angkatan)
    | _, _, _, _ => Raise (Exception DataError)
    end.

(** The same for INSERT INTO krs; [id_krs] comes from the store's
    sequence. *)
Definition store_krs (row : KRS.t) : result KRS.t :=
  if has_nul (KRS.nim row) || has_nul (KRS.kode_mk row)
     || from_option has_nul false (KRS.nilai row)
  then Raise (Exception ValueError)
  else
    match store_varchar 10 (KRS.nim row),
          store_varchar 10 (KRS.kode_mk row),
          store_null (store_varchar 2) (KRS.nilai row),
          store_null store_integer (KRS.semester row) with
    | Some nim, Some kode_mk, Some nilai, Some semester =>
        Return (KRS.mk (KRS.id_krs row) nim kode_mk nilai semester)
    | _, _, _, _ => Raise (Exception DataError)
    end.

(** INSERT INTO mahasiswa, committed: the values are cast to their columns
    and the primary key of the stored row must be new.  A failed statement
    leaves no trace. *)
Definition insert_mahasiswa (row : Mahasiswa.t) (db : DB) : result DB :=
  do stored <- store_mahasiswa row;
  if bool_decide (Mahasiswa.nim stored ∈ Mahasiswa.nim <$> mahasiswa db)
  then Raise (Exception UniqueViolation)
  else Return {| mahasiswa := mahasiswa db ++ [stored];
                 mata_kuliah := mata_kuliah db;
                 krs := krs db;
                 bobot_nilai := bobot_nilai db |}.

(** INSERT INTO krs, committed: besides the column types and the primary
    key, the three foreign keys of the stored row are checked; a NULL
    [nilai] references nothing. *)
Definition insert_krs (row : KRS.t) (db : DB) : result DB :=
  do stored <- store_krs row;
  if bool_decide (KRS.id_krs stored ∈ KRS.id_krs <$> krs db)
  then Raise (Exception UniqueViolation)
  else if negb (bool_decide (KRS.nim stored ∈ Mahasiswa.nim <$> mahasiswa db)
                && bool_decide (KRS.kode_mk stored ∈ MataKuliah.kode_mk <$> mata_kuliah db)
                && from_option
                     (fun g => bool_decide (g ∈ BobotNilai.nilai <$> bobot_nilai db))
                     true (KRS.nilai stored))
  then Raise (Exception ForeignKeyViolation)
  else Return {| mahasiswa := mahasiswa db;
                 mata_kuliah := mata_kuliah db;
                 krs := krs db ++ [stored];
                 bobot_nilai := bobot_nilai db |}.

(** [db.query(KRS).filter(KRS.id_krs == id_krs).first()], the row that
    [db.refresh] loads for an enrollment. *)
Definition first_krs (db : DB) (id_krs : Z) : option KRS.t :=
  head (filter (fun k => KRS.id_krs k = id_krs) (krs db)).

(** ** Request bodies and their validation *)

(** A JSON value of a request body; [JOther] stands for the values no field
    of the schemas below accepts as a string (arrays, objects, fractions). *)
Inductive json :=
  | JNull
  | JBool (b : bool)
  | JInt (z : Z)
  | JStr (s : string)
  | JOther.

(** A field annotated [str]: required, and only a JSON string is valid. *)
Definition validate_str (v : option json) : option string :=
  match v with
  | Some (JStr s) => Some s
  | _ => None
  end.

(** The location reported for a field that failed validation. *)
Definition invalid {A} (loc : string) (v : option A) : list string :=
  match v with
  | Some _ => []
  | None => [loc]
  end.

Module MahasiswaSchema.
Record t := mk { nim : string; nama : string; jurusan : string; angkatan : Z }.
End MahasiswaSchema.

Module KRSSchema.
Record t := mk { nim : string; kode_mk : string; nilai : string; semester : Z }.
End KRSSchema.

(** The payload of a successful insert. *)
Record created (A : Type) := { message : string; data : A }.
Arguments message {A} c.
Arguments data {A} c.

(** ** [POST /api/acad/mahasiswa] *)

Definition create_mahasiswa (mhs : MahasiswaSchema.t) (db : DB)
    : response (created Mahasiswa.t) * DB :=
  let new_mhs :=
    {| Mahasiswa.nim := MahasiswaSchema.nim mhs;
       Mahasiswa.nama := MahasiswaSchema.nama mhs;
       Mahasiswa.jurusan := Some (MahasiswaSchema.jurusan mhs);
       Mahasiswa.angkatan := Some (MahasiswaSchema.angkatan mhs) |} in
  match insert_mahasiswa new_mhs db with
  | Return db' =>
      (* committed; db.refresh(new_mhs) reloads the row whose primary key
         is the nim that was submitted *)
      match first_mahasiswa db' (Mahasiswa.nim new_mhs) with
      | Some new_mhs =>
          (Ok {| message := "Mahasiswa created successfully"; data := new_mhs |}, db')
      | None =>
          (* db.rollback(), with nothing left to roll back *)
          (catch_all (Raise (Exception InvalidRequestError)), db')
      end
  | Raise r =>
      (* db.rollback() *)
      (catch_all (Raise r), db)
  end.

(** ** [POST /api/acad/krs] *)

Section create_krs.
(** The id the store's sequence assigns to the next [krs] row. *)
Variable nextval : DB -> Z.
(** The coercion of a JSON value to a field annotated [int]. *)
Variable validate_int : option json -> option Z.

Definition create_krs (krs : KRSSchema.t) (db : DB)
    : response (created KRS.t) * DB :=
  let new_krs :=
    {| KRS.id_krs := nextval db;
       KRS.nim := KRSSchema.nim krs;
       KRS.kode_mk := KRSSchema.kode_mk krs;
       KRS.nilai := Some (KRSSchema.nilai krs);
       KRS.semester := Some (KRSSchema.semester krs) |} in
  match insert_krs new_krs db with
  | Return db' =>
      (* committed; db.refresh(new_krs) reloads the row by its id *)
      match first_krs db' (KRS.id_krs new_krs) with
      | Some new_krs =>
          (Ok {| message := "KRS created successfully"; data := new_krs |}, db')
      | None =>
          (catch_all (Raise (Exception InvalidRequestError)), db')
      end
  | Raise r =>
      (* db.rollback() *)
      (catch_all (Raise r), db)
  end.

(** The body is validated against [KRSSchema] before the handler runs; a
    body that fails is answered with 422 and the handler is not called. *)
Definition KRSSchema_validate (body : gmap string json)
    : list string + KRSSchema.t :=
  match validate_str (body !! "nim"), validate_str (body !! "kode_mk"),
        validate_str (body !! "nilai"), validate_int (body !! "semester") with
  | Some nim, Some kode_mk, Some nilai, Some semester =>
      inr (KRSSchema.mk nim kode_mk nilai semester)
  | nim, kode_mk, nilai, semester =>
      inl (invalid "nim" nim ++ invalid "kode_mk" kode_mk
           ++ invalid "nilai" nilai ++ invalid "semester" semester)
  end.

Definition post_krs (body : gmap string json) (db : DB)
    : response (created KRS.t) * DB :=
  match KRSSchema_validate body with
  | inl loc => (Http 422 (Invalid loc), db)
  | inr krs => create_krs krs db
  end.
End create_krs.

(** ** Student and course listings *)

(** [ORDER BY] on one string column, ascending. *)
Definition order_by_code {A} (key : A -> string) (rows : list A) : list A :=
  merge_sort (fun r1 r2 => String.le (key r1) (key r2)) rows.

(** [GET /api/acad/mahasiswa]: every row, ordered by nim.  The dict built
    for a row has the row's four columns, so the row stands for it. *)
Definition get_all_mahasiswa (db : DB) : response (list Mahasiswa.t) :=
  catch_all
    (let mahasiswa_list := order_by_code Mahasiswa.nim (mahasiswa db) in
     Return mahasiswa_list).

(** [GET /api/acad/mahasiswa/{nim}] *)
Definition get_mahasiswa (nim : string) (db : DB) : response Mahasiswa.t :=
  reraise_http
    (match first_mahasiswa db nim with
     | None => Raise (HTTPException 404 (Msg "Mahasiswa not found"))
     | Some mhs => Return mhs
     end).

(** [GET /api/acad/matakuliah]: every row, ordered by kode_mk. *)
Definition get_all_matakuliah (db : DB) : response (list MataKuliah.t) :=
  catch_all
    (let matkul_list := order_by_code MataKuliah.kode_mk (mata_kuliah db) in
     Return matkul_list).

(** ** [POST /api/acad/matakuliah] *)

Module MataKuliahSchema.
Record t := mk { kode_mk : string; nama_mk : string; sks : Z }.
End MataKuliahSchema.

(** The row that the store holds for the values of an INSERT INTO
    mata_kuliah. *)
Definition store_mata_kuliah (row : MataKuliah.t) : result MataKuliah.t :=
  if has_nul (MataKuliah.kode_mk row) || has_nul (MataKuliah.nama_mk row)
  then Raise (Exception ValueError)
  else
    match store_varchar 10 (MataKuliah.kode_mk row),
          store_varchar 100 (MataKuliah.nama_mk row),
          store_integer (MataKuliah.sks row) with
    | Some kode_mk, Some nama_mk, Some sks =>
        Return (MataKuliah.mk kode_mk nama_mk sks)
    | _, _, _ => Raise (Exception DataError)
    end.

(** INSERT INTO mata_kuliah, committed. *)
Definition insert_mata_kuliah (row : MataKuliah.t) (db : DB) : result DB :=
  do stored <- store_mata_kuliah row;
  if bool_decide (MataKuliah.kode_mk stored ∈ MataKuliah.kode_mk <$> mata_kuliah db)
  then Raise (Exception UniqueViolation)
  else Return {| mahasiswa := mahasiswa db;
                 mata_kuliah := mata_kuliah db ++ [stored];
                 krs := krs db;
                 bobot_nilai := bobot_nilai db |}.

(** [db.query(MataKuliah).filter(MataKuliah.kode_mk == kode_mk).first()],
    the row that [db.refresh] loads for a course. *)
Definition first_mata_kuliah (db : DB) (kode_mk : string) : option MataKuliah.t :=
  head (filter (fun mk => MataKuliah.kode_mk mk = kode_mk) (mata_kuliah db)).

Definition create_matakuliah (mk : MataKuliahSchema.t) (db : DB)
    : response (created MataKuliah.t) * DB :=
  let new_mk :=
    {| MataKuliah.kode_mk := MataKuliahSchema.kode_mk mk;
       MataKuliah.nama_mk := MataKuliahSchema.nama_mk mk;
       MataKuliah.sks := MataKuliahSchema.sks mk |} in
  match insert_mata_kuliah new_mk db with
  | Return db' =>
      (* committed; db.refresh(new_mk) reloads the row whose primary key
         is the code that was submitted *)
      match first_mata_kuliah db' (MataKuliah.kode_mk new_mk) with
      | Some new_mk =>
          (Ok {| message := "Mata kuliah created successfully"; data := new_mk |}, db')
      | None =>
          (* db.rollback(), with nothing left to roll back *)
          (catch_all (Raise (Exception InvalidRequestError)), db')
      end
  | Raise r =>
      (* db.rollback() *)
      (catch_all (Raise r), db)
  end.

(** ** [GET /api/acad/db-status] *)

(** [c.isspace()] for a character of an ASCII string. *)
Definition py_isspace (c : Ascii.ascii) : bool :=
  let n := Ascii.N_of_ascii c in
  ((9 <=? n) && (n <=? 13) || (28 <=? n) && (n <=? 32))%N.

(** [s.split()]: the maximal runs of characters that are not whitespace.
    [cur] is the run being read. *)
Fixpoint py_split_go (cur : string) (s : string) : list string :=
  match s with
  | EmptyString =>
      match cur with EmptyString => [] | _ => [cur] end
  | String c s' =>
      if py_isspace c
      then match cur with
           | EmptyString => py_split_go EmptyString s'
           | _ => cur :: py_split_go EmptyString s'
           end
      else py_split_go (cur +:+ String c EmptyString) s'
  end.

Definition py_split (s : string) : list string := py_split_go EmptyString s.

Module DBStatus.
Record statistics := mk_statistics {
  total_mahasiswa : Z;
  total_mata_kuliah : Z;
  total_krs : Z
}.
Record t := mk {
  status : string;
  database : string;
  version : list string;
  statistics_ : statistics
}.
End DBStatus.

(** The three counts and the first two words of the answer of
    [SELECT version()], an ASCII text that the store supplies.  The handler
    turns an exception into a payload of its own; the queries of the model
    raise none. *)
Definition database_status (server_version : string) (db : DB) : DBStatus.t :=
  let count_mhs := Z.of_nat (length (mahasiswa db)) in
  let count_mk := Z.of_nat (length (mata_kuliah db)) in
  let count_krs := Z.of_nat (length (krs db)) in
  let version := server_version in
  {| DBStatus.status := "connected";
     DBStatus.database := "PostgreSQL";
     DBStatus.version := take 2 (py_split version);
     DBStatus.statistics_ :=
       {| DBStatus.total_mahasiswa := count_mhs;
          DBStatus.total_mata_kuliah := count_mk;
          DBStatus.total_krs := count_krs |} |}.

(** * Specification-level definitions *)

(** The database with its [krs] table replaced. *)
Definition with_krs (db : DB) (l : list KRS.t) : DB :=
  {| mahasiswa := mahasiswa db;
     mata_kuliah := mata_kuliah db;
     krs := l;
     bobot_nilai := bobot_nilai db |}.


(** ** What the schema guarantees *)

Definition int4 (z : Z) : Prop := - 2 ^ 31 <= z < 2 ^ 31.
Definition int8 (z : Z) : Prop := - 2 ^ 63 <= z < 2 ^ 63.

(** Primary keys are unique, [krs.id_krs] is a BIGINT and
    [mata_kuliah.sks] an INTEGER: what the queries and the arithmetic of
    the handlers rely on.  The types of the other columns ([columns_ok])
    and the foreign keys ([fk_ok]) are stated apart. *)
Definition schema_ok (db : DB) : Prop :=
  NoDup (Mahasiswa.nim <$> mahasiswa db)
  /\ NoDup (MataKuliah.kode_mk <$> mata_kuliah db)
  /\ NoDup (BobotNilai.nilai <$> bobot_nilai db)
  /\ NoDup (KRS.id_krs <$> krs db)
  /\ Forall (fun k => int8 (KRS.id_krs k)) (krs db)
  /\ Forall (fun mk => int4 (MataKuliah.sks mk)) (mata_kuliah db).

#[global] Instance int4_dec z : Decision (int4 z).
Proof. unfold int4. apply _. Defined.

#[global] Instance int8_dec z : Decision (int8 z).
Proof. unfold int8. apply _. Defined.

#[global] Instance schema_ok_dec db : Decision (schema_ok db).
Proof. unfold schema_ok. apply _. Defined.


(** ** The aggregation, as the specification words it *)

(** [weight_i * credit_units_i], unrounded. *)
Definition weighted (row : IPSRow.t) : float :=
  (IPSRow.bobot row * float_of_Z (IPSRow.sks row))%float.

(** The double-precision sum of [xs], accumulated from left to right. *)
Definition float_sum (xs : list float) : float :=
  fold_left PrimFloat.add xs zero.

Definition total_weighted (rows : list IPSRow.t) : float :=
  float_sum (weighted <$> rows).

Definition total_credits (rows : list IPSRow.t) : Z :=
  foldr Z.add 0 (IPSRow.sks <$> rows).

Definition detail_of (row : IPSRow.t) : IPSDetail.t :=
  {| IPSDetail.mata_kuliah := IPSRow.nama_mk row;
     IPSDetail.sks := IPSRow.sks row;
     IPSDetail.nilai := IPSRow.nilai row;
     IPSDetail.bobot := IPSRow.bobot row;
     IPSDetail.bobot_x_sks := round2 (weighted row) |}.

(** [total_weighted / total_credits] behind the guard of the division. *)
Definition guarded_ips (rows : list IPSRow.t) : pynum :=
  if 0 <? total_credits rows
  then PyFloat (total_weighted rows / float_of_Z (total_credits rows))%float
  else PyInt 0.

Definition display_name (db : DB) (nim : string) : string :=
  match first_mahasiswa db nim with
  | Some m => Mahasiswa.nama m
  | None => "Unknown"
  end.

(** The whole payload, from the rows of the query. *)
Definition ips_payload (request : IPSRequest.t) (db : DB) (rows : list IPSRow.t)
    : IPSData.t :=
  {| IPSData.nim := IPSRequest.nim request;
     IPSData.nama := display_name db (IPSRequest.nim request);
     IPSData.semester := IPSRequest.semester request;
     IPSData.ips := py_round2 (guarded_ips rows);
     IPSData.total_sks := total_credits rows;
     IPSData.total_bobot := round2 (total_weighted rows);
     IPSData.details := detail_of <$> rows |}.


(** ** The order of an enrollment listing *)


(** ** Sample data *)

(** One student; the two graded courses of term 1 are the worked example of
    the specification (3 credits at 4.0 and 2 credits at 3.0).  Row 3 has no
    grade, row 7 is a course without credits, row 8 refers to a student
    that does not exist, row 9 is in term 0. *)
Definition sample_db : DB :=
  {| mahasiswa := [Mahasiswa.mk "S1" "Budi" (Some "Informatika") (Some 2023)];
     mata_kuliah :=
       [MataKuliah.mk "C1" "Algoritma" 3; MataKuliah.mk "C2" "Basis Data" 2;
        MataKuliah.mk "C3" "Etika Profesi" 1; MataKuliah.mk "C4" "Olahraga" 1;
        MataKuliah.mk "C5" "Statistika" 2; MataKuliah.mk "C0" "Seminar" 0];
     krs :=
       [KRS.mk 1 "S1" "C1" (Some "A") (Some 1);
        KRS.mk 2 "S1" "C2" (Some "B") (Some 1);
        KRS.mk 3 "S1" "C3" None (Some 1);
        KRS.mk 4 "S1" "C3" (Some "A") (Some 2);
        KRS.mk 5 "S1" "C4" (Some "A-") (Some 2);
        KRS.mk 6 "S1" "C5" (Some "C-") (Some 2);
        KRS.mk 7 "S1" "C0" (Some "A") (Some 3);
        KRS.mk 8 "S9" "C1" (Some "B") (Some 1);
        KRS.mk 9 "S1" "C2" (Some "A") (Some 0)];
     bobot_nilai :=
       [BobotNilai.mk "A" 4%float; BobotNilai.mk "A-" (37 / 10)%float;
        BobotNilai.mk "B" 3%float; BobotNilai.mk "C-" (17 / 10)%float] |}.

(** The rows that the query of the IPS calculator selects for term 2 of
    the student (1 credit at 4.0, 1 credit at 3.7, 2 credits at 1.7), in
    two of the orders in which the store may return them. *)
Definition sample_rows : list IPSRow.t :=
  [IPSRow.mk 1 4%float "Etika Profesi" (Some "A");
   IPSRow.mk 1 (37 / 10)%float "Olahraga" (Some "A-");
   IPSRow.mk 2 (17 / 10)%float "Statistika" (Some "C-")].

Definition sample_rows_swapped : list IPSRow.t :=
  [IPSRow.mk 1 4%float "Etika Profesi" (Some "A");
   IPSRow.mk 2 (17 / 10)%float "Statistika" (Some "C-");
   IPSRow.mk 1 (37 / 10)%float "Olahraga" (Some "A-")].


(** ** Referential integrity *)

(** The databases with one of the other tables replaced. *)
Definition with_mahasiswa (db : DB) (l : list Mahasiswa.t) : DB :=
  {| mahasiswa := l;
     mata_kuliah := mata_kuliah db;
     krs := krs db;
     bobot_nilai := bobot_nilai db |}.

Definition with_mata_kuliah (db : DB) (l : list MataKuliah.t) : DB :=
  {| mahasiswa := mahasiswa db;
     mata_kuliah := l;
     krs := krs db;
     bobot_nilai := bobot_nilai db |}.

(** The three foreign keys of a [krs] row; a NULL grade references nothing. *)
Definition references_ok (db : DB) (k : KRS.t) : Prop :=
  KRS.nim k ∈ (Mahasiswa.nim <$> mahasiswa db)
  /\ KRS.kode_mk k ∈ (MataKuliah.kode_mk <$> mata_kuliah db)
  /\ match KRS.nilai k with
     | Some g => g ∈ (BobotNilai.nilai <$> bobot_nilai db)
     | None => True
     end.

Definition fk_ok (db : DB) : Prop := Forall (references_ok db) (krs db).

#[global] Instance references_ok_dec db k : Decision (references_ok db k).
Proof. unfold references_ok. destruct (KRS.nilai k); apply _. Defined.

#[global] Instance fk_ok_dec db : Decision (fk_ok db).
Proof. unfold fk_ok. apply _. Defined.

(** ** Column types *)

(** A text that a [String(n)] column can hold: at most [n] characters and
    no NUL. *)
Definition varchar (n : nat) (s : string) : Prop :=
  (char_length s <= n)%nat /\ has_nul s = false.

(** A nullable column holds NULL or a value of its type. *)
Definition nullable {A} (P : A -> Prop) (v : option A) : Prop :=
  match v with
  | Some a => P a
  | None => True
  end.

Definition mahasiswa_ok (m : Mahasiswa.t) : Prop :=
  varchar 10 (Mahasiswa.nim m) /\ varchar 100 (Mahasiswa.nama m)
  /\ nullable (varchar 50) (Mahasiswa.jurusan m)
  /\ nullable int4 (Mahasiswa.angkatan m).

Definition mata_kuliah_ok (mk : MataKuliah.t) : Prop :=
  varchar 10 (MataKuliah.kode_mk mk) /\ varchar 100 (MataKuliah.nama_mk mk)
  /\ int4 (MataKuliah.sks mk).

Definition krs_ok (k : KRS.t) : Prop :=
  int8 (KRS.id_krs k) /\ varchar 10 (KRS.nim k) /\ varchar 10 (KRS.kode_mk k)
  /\ nullable (varchar 2) (KRS.nilai k) /\ nullable int4 (KRS.semester k).

Definition bobot_nilai_ok (bn : BobotNilai.t) : Prop :=
  varchar 2 (BobotNilai.nilai bn).

(** Every column of every row holds a value of its SQL type. *)
Definition columns_ok (db : DB) : Prop :=
  Forall mahasiswa_ok (mahasiswa db) /\ Forall mata_kuliah_ok (mata_kuliah db)
  /\ Forall krs_ok (krs db) /\ Forall bobot_nilai_ok (bobot_nilai db).

#[global] Instance varchar_dec n s : Decision (varchar n s).
Proof. unfold varchar. apply _. Defined.

#[global] Instance nullable_dec {A} (P : A -> Prop) `{forall a, Decision (P a)} v :
  Decision (nullable P v).
Proof. destruct v; simpl; apply _. Defined.

#[global] Instance columns_ok_dec db : Decision (columns_ok db).
Proof.
  unfold columns_ok, mahasiswa_ok, mata_kuliah_ok, krs_ok, bobot_nilai_ok.
  apply _.
Defined.

(** The enrollments of a student in a term that carry a grade. *)
Definition graded (nim : string) (semester : Z) (k : KRS.t) : Prop :=
  KRS.nim k = nim /\ KRS.semester k = Some semester /\ is_Some (KRS.nilai k).

#[global] Instance graded_dec nim semester k : Decision (graded nim semester k).
Proof. unfold graded. apply _. Defined.

(** The enrollments of a student that a listing request asks for. *)
Definition listed (nim : string) (semester : option Z) (k : KRS.t) : Prop :=
  KRS.nim k = nim /\ (truthy semester = true -> KRS.semester k = semester).

#[global] Instance listed_dec nim semester k : Decision (listed nim semester k).
Proof. unfold listed. apply _. Defined.

(** A sample database in which every enrollment refers to existing rows:
    [sample_db] without the row of the unknown student. *)
Definition sample_db_fk : DB :=
  with_krs sample_db
    [KRS.mk 1 "S1" "C1" (Some "A") (Some 1);
     KRS.mk 2 "S1" "C2" (Some "B") (Some 1);
     KRS.mk 3 "S1" "C3" None (Some 1);
     KRS.mk 4 "S1" "C3" (Some "A") (Some 2);
     KRS.mk 5 "S1" "C4" (Some "A-") (Some 2);
     KRS.mk 6 "S1" "C5" (Some "C-") (Some 2);
     KRS.mk 7 "S1" "C0" (Some "A") (Some 3);
     KRS.mk 9 "S1" "C2" (Some "A") (Some 0)].

(** A row of a listing read back as the enrollment it shows. *)
Definition enrollment_of (d : KRSDetail.t) : KRS.t :=
  {| KRS.id_krs := KRSDetail.id_krs d;
     KRS.nim := KRSDetail.nim d;
     KRS.kode_mk := KRSDetail.kode_mk d;
     KRS.nilai := KRSDetail.nilai d;
     KRS.semester := KRSDetail.semester d |}.

(** A text without whitespace. *)
Fixpoint no_space (s : string) : bool :=
  match s with
  | EmptyString => true
  | String c s' => negb (py_isspace c) && no_space s'
  end.

(** * Properties *)

(** ** The model of Python's numbers, on known values *)

(** [round(x, 2)] rounds the exact binary value, ties to even:
    [round(0.125, 2) = 0.12], [round(0.375, 2) = 0.38], and
    [round(2.675, 2) = 2.67] because the double nearest to 2.675 lies below
    it.  The sign of a zero is kept, and the infinities are left alone. *)
Example round2_values :
  round2 (125 / 1000) = (12 / 100)%float /\
  round2 (375 / 1000) = (38 / 100)%float /\
  round2 (2675 / 1000) = (267 / 100)%float /\
  round2 (- (1 / 1000)) = neg_zero /\
  round2 infinity = infinity /\
  round2 (2775 / 1000) = (277 / 100)%float /\
  round2 (111 / 10 / 4) = (277 / 100)%float.
Proof. repeat split; vm_compute; reflexivity. Qed.

(** The conversion of an int is exact up to [2^53], rounds to even beyond,
    and overflows exactly where the rounded value stops being finite. *)
Example int_to_float_values :
  int_to_float 3 = Some 3%float /\
  int_to_float (2 ^ 53 + 1) = Some 9007199254740992%float /\
  int_to_float (2 ^ 53 + 3) = Some 9007199254740996%float /\
  int_to_float (float_overflow_threshold - 1) = Some 0x1.fffffffffffffp+1023%float /\
  binary_normalize prec emax float_overflow_threshold 0 false = S754_infinity false /\
  int_to_float float_overflow_threshold = None.
Proof. repeat split; vm_compute; reflexivity. Qed.

(** ** Joins *)

Lemma cross_cons {A B} (a : A) (l : list A) (r : list B) :
  cross (a :: l) r = (pair a <$> r) ++ cross l r.
Proof. reflexivity. Qed.

Lemma cross_app {A B} (l1 l2 : list A) (r : list B) :
  cross (l1 ++ l2) r = cross l1 r ++ cross l2 r.
Proof. unfold cross. apply bind_app. Qed.

Lemma elem_of_cross {A B} (l : list A) (r : list B) (p : A * B) :
  p ∈ cross l r <-> p.1 ∈ l /\ p.2 ∈ r.
Proof.
  unfold cross. rewrite list_elem_of_bind. split.
  - intros (a & Hp & Ha). apply list_elem_of_fmap in Hp as (b & -> & Hb). auto.
  - destruct p as [a b]. intros [Ha Hb]. exists a. split; [|exact Ha].
    apply list_elem_of_fmap. eauto.
Qed.

Section join.
Context {A B : Type} (on : A * B -> Prop) `{forall p, Decision (on p)}.

Lemma elem_of_join (l : list A) (r : list B) (p : A * B) :
  p ∈ join on l r <-> on p /\ p.1 ∈ l /\ p.2 ∈ r.
Proof.
  unfold join. rewrite list_elem_of_filter, elem_of_cross. tauto.
Qed.

Lemma join_nil_l (r : list B) : join on [] r = [].
Proof. reflexivity. Qed.

Lemma join_app_l (l1 l2 : list A) (r : list B) :
  join on (l1 ++ l2) r = join on l1 r ++ join on l2 r.
Proof.
  unfold join. rewrite cross_app. apply filter_app.
Qed.

Lemma join_cons_l (a : A) (l : list A) (r : list B) :
  join on (a :: l) r = filter on (pair a <$> r) ++ join on l r.
Proof. unfold join. rewrite cross_cons. apply filter_app. Qed.

(** When the ON clause compares with a key of the right table, a left row
    has at most one partner. *)
Lemma filter_key_length {K} (g : B -> K) (a : A) (r : list B) :
  (forall b1 b2, on (a, b1) -> on (a, b2) -> g b1 = g b2) ->
  NoDup (g <$> r) ->
  (length (filter on (pair a <$> r)) <= 1)%nat.
Proof.
  intros Hkey. induction r as [|b r IH]; intros Hnd; [cbn; lia|].
  rewrite fmap_cons in Hnd. apply NoDup_cons in Hnd as [Hb Hnd].
  rewrite fmap_cons, filter_cons. destruct (decide (on (a, b))) as [Hon|Hoff].
  - assert (filter on (pair a <$> r) = []) as ->; [|cbn; lia].
    apply elem_of_nil_inv. intros p [Hp Hin]%list_elem_of_filter.
    apply list_elem_of_fmap in Hin as (b' & -> & Hb').
    apply Hb. rewrite (Hkey b b' Hon Hp). apply list_elem_of_fmap. eauto.
  - apply IH, Hnd.
Qed.

Lemma join_key_length {K} (g : B -> K) (l : list A) (r : list B) :
  (forall a b1 b2, on (a, b1) -> on (a, b2) -> g b1 = g b2) ->
  NoDup (g <$> r) ->
  (length (join on l r) <= length l)%nat.
Proof.
  intros Hkey Hnd. induction l as [|a l IH]; [reflexivity|].
  rewrite join_cons_l, length_app. cbn [length].
  pose proof (filter_key_length g a r (Hkey a) Hnd). lia.
Qed.
End join.

(** ** The query of the IPS calculator *)

Lemma with_krs_id (db : DB) : with_krs db (krs db) = db.
Proof. destruct db; reflexivity. Qed.

Lemma elem_of_ips_query (db : DB) (nim : string) (semester : Z) (row : IPSRow.t) :
  row ∈ ips_query db nim semester <->
  exists k mk bn,
    k ∈ krs db /\ mk ∈ mata_kuliah db /\ bn ∈ bobot_nilai db /\
    KRS.kode_mk k = MataKuliah.kode_mk mk /\
    KRS.nilai k = Some (BobotNilai.nilai bn) /\
    KRS.nim k = nim /\ KRS.semester k = Some semester /\
    row = IPSRow.mk (MataKuliah.sks mk) (BobotNilai.bobot bn)
            (MataKuliah.nama_mk mk) (KRS.nilai k).
Proof.
  unfold ips_query. rewrite list_elem_of_fmap. split.
  - intros ([[k mk] bn] & -> & Hin).
    apply list_elem_of_filter in Hin as [[Hnim Hsem] Hin].
    apply elem_of_join in Hin as (Hbn & Hin & Hb).
    apply elem_of_join in Hin as (Hmk & Hk & Hm).
    exists k, mk, bn. cbn in *. repeat split; assumption.
  - intros (k & mk & bn & Hk & Hm & Hb & Hmk & Hbn & Hnim & Hsem & ->).
    exists (k, mk, bn). split; [reflexivity|].
    apply list_elem_of_filter. split; [split; assumption|].
    apply elem_of_join. split; [assumption|]. split; [|assumption].
    apply elem_of_join. auto.
Qed.

(** The query is computed row by row of [krs]. *)
Lemma ips_query_app (db : DB) (l1 l2 : list KRS.t) (nim : string) (semester : Z) :
  ips_query (with_krs db (l1 ++ l2)) nim semester =
  ips_query (with_krs db l1) nim semester ++ ips_query (with_krs db l2) nim semester.
Proof.
  unfold ips_query. cbn [with_krs krs mata_kuliah bobot_nilai].
  rewrite !join_app_l, filter_app. apply fmap_app.
Qed.

Lemma ips_query_no_krs (db : DB) (nim : string) (semester : Z) :
  ips_query (with_krs db []) nim semester = [].
Proof. reflexivity. Qed.

Lemma NoDup_int8_length (l : list Z) :
  NoDup l -> Forall int8 l -> Z.of_nat (length l) <= 2 ^ 64.
Proof.
  intros Hnd Hall.
  assert (Hsub : l ⊆+ seqZ (- 2 ^ 63) (2 ^ 64)).
  { apply NoDup_submseteq; [exact Hnd|]. intros z Hz.
    rewrite Forall_forall in Hall. specialize (Hall z Hz). unfold int8 in Hall.
    apply elem_of_seqZ. lia. }
  apply submseteq_length in Hsub. rewrite length_seqZ in Hsub. lia.
Qed.

Lemma ips_query_length (db : DB) (nim : string) (semester : Z) :
  NoDup (MataKuliah.kode_mk <$> mata_kuliah db) ->
  NoDup (BobotNilai.nilai <$> bobot_nilai db) ->
  (length (ips_query db nim semester) <= length (krs db))%nat.
Proof.
  intros Hmk Hbn. unfold ips_query. rewrite length_fmap.
  etrans; [apply length_filter|].
  etrans; [apply (join_key_length _ BobotNilai.nilai); [|exact Hbn]|].
  { intros a b1 b2 H1 H2. cbn in *. congruence. }
  apply (join_key_length _ MataKuliah.kode_mk); [|exact Hmk].
  intros a b1 b2 H1 H2. cbn in *. congruence.
Qed.

(** ** The loop computes the aggregation *)

Lemma int_to_float_small (z : Z) :
  Z.abs z < float_overflow_threshold -> int_to_float z = Some (float_of_Z z).
Proof.
  intros Hz. unfold int_to_float.
  destruct (Z.ltb_spec (Z.abs z) float_overflow_threshold) as [_|Hge];
    [reflexivity|lia].
Qed.

Lemma small_lt_threshold : 2 ^ 95 < float_overflow_threshold.
Proof. reflexivity. Qed.

Lemma ips_loop_spec (rows : list IPSRow.t) (acc : accum) :
  Forall (fun row => Z.abs (IPSRow.sks row) < float_overflow_threshold) rows ->
  ips_loop rows acc =
  Return {| total_bobot := fold_left PrimFloat.add (weighted <$> rows) (total_bobot acc);
            total_sks := total_sks acc + total_credits rows;
            details := details acc ++ (detail_of <$> rows) |}.
Proof.
  intros Hall. revert acc.
  induction Hall as [|row rows Hrow _ IH]; intros acc.
  - cbn. rewrite Z.add_0_r, app_nil_r. destruct acc; reflexivity.
  - cbn [ips_loop]. unfold float_mul_int. rewrite (int_to_float_small _ Hrow).
    cbn [bind]. rewrite IH. cbn [total_bobot total_sks details].
    rewrite !fmap_cons. cbn [fold_left]. rewrite <- app_assoc.
    unfold total_credits. rewrite fmap_cons. cbn [foldr].
    rewrite Z.add_assoc. reflexivity.
Qed.

Lemma total_credits_int4 (rows : list IPSRow.t) :
  Forall (fun row => int4 (IPSRow.sks row)) rows ->
  Z.abs (total_credits rows) <= 2 ^ 31 * Z.of_nat (length rows).
Proof.
  unfold total_credits, int4.
  induction 1 as [|row rows Hrow _ IH]; [cbn; lia|].
  rewrite fmap_cons. cbn [foldr length]. lia.
Qed.

Lemma ips_query_int4 (db : DB) (nim : string) (semester : Z) :
  schema_ok db ->
  Forall (fun row => int4 (IPSRow.sks row)) (ips_query db nim semester).
Proof.
  intros (_ & _ & _ & _ & _ & Hsks). apply Forall_forall. intros row Hrow.
  apply elem_of_ips_query in Hrow as (k & mk & bn & _ & Hmk & _ & _ & _ & _ & _ & ->).
  rewrite Forall_forall in Hsks. exact (Hsks mk Hmk).
Qed.

Lemma ips_query_total_small (db : DB) (nim : string) (semester : Z) :
  schema_ok db ->
  Z.abs (total_credits (ips_query db nim semester)) < float_overflow_threshold.
Proof.
  intros Hok. pose proof (ips_query_int4 db nim semester Hok) as Hint.
  apply total_credits_int4 in Hint.
  destruct Hok as (_ & Hmk & Hbn & Hid & Hid8 & _).
  pose proof (ips_query_length db nim semester Hmk Hbn) as Hlen.
  assert (Hkrs : Z.of_nat (length (krs db)) <= 2 ^ 64).
  { rewrite <- (length_fmap KRS.id_krs). apply NoDup_int8_length; [exact Hid|].
    apply Forall_fmap. exact Hid8. }
  pose proof small_lt_threshold.
  assert (2 ^ 31 * 2 ^ 64 = 2 ^ 95) by reflexivity. nia.
Qed.

Lemma total_credits_Permutation (rows rows' : list IPSRow.t) :
  rows' ≡ₚ rows -> total_credits rows' = total_credits rows.
Proof.
  unfold total_credits. intros Hp.
  induction Hp as [|row l l' _ IH|row1 row2 l|l l' l'' _ IH1 _ IH2].
  - reflexivity.
  - rewrite !fmap_cons. cbn [foldr]. rewrite IH. reflexivity.
  - rewrite !fmap_cons. cbn [foldr]. lia.
  - congruence.
Qed.

(** Whatever the order in which the store returns them, the rows carry
    INTEGER credit units and their sum converts to a float. *)
Lemma ips_query_returns_int4 (db : DB) (nim : string) (semester : Z)
    (results : list IPSRow.t) :
  schema_ok db -> ips_query_returns db nim semester results ->
  Forall (fun row => int4 (IPSRow.sks row)) results.
Proof.
  intros Hok Hp. unfold ips_query_returns in Hp. rewrite Hp.
  apply ips_query_int4, Hok.
Qed.

Lemma ips_query_returns_total_small (db : DB) (nim : string) (semester : Z)
    (results : list IPSRow.t) :
  schema_ok db -> ips_query_returns db nim semester results ->
  Z.abs (total_credits results) < float_overflow_threshold.
Proof.
  intros Hok Hp. rewrite (total_credits_Permutation _ _ Hp).
  apply ips_query_total_small, Hok.
Qed.

(** Under the schema, a non-empty list of rows is answered with the
    payload computed from the rows in the order in which the store returned
    them. *)
Lemma calculate_ips_ok (request : IPSRequest.t) (db : DB) (results : list IPSRow.t) :
  schema_ok db ->
  ips_query_returns db (IPSRequest.nim request) (IPSRequest.semester request) results ->
  results <> [] ->
  calculate_ips request db results = Ok (ips_payload request db results).
Proof.
  intros Hok Hp Hne. unfold calculate_ips, calculate_ips_body.
  pose proof (ips_query_returns_total_small _ _ _ _ Hok Hp) as Htot.
  pose proof (ips_query_returns_int4 _ _ _ _ Hok Hp) as Hint.
  destruct results as [|row rows]; [congruence|].
  rewrite ips_loop_spec.
  2:{ eapply Forall_impl; [exact Hint|]. intros r Hr. unfold int4 in Hr.
      pose proof small_lt_threshold.
      assert (2 ^ 31 < 2 ^ 95) by reflexivity. cbn beta. lia. }
  cbn [bind accum0 total_bobot total_sks details]. rewrite Z.add_0_l, app_nil_l.
  unfold ips_payload, guarded_ips, total_weighted, float_sum, display_name.
  destruct (Z.ltb_spec 0 (total_credits (row :: rows))) as [Hpos|_]; [|reflexivity].
  unfold float_div_int. rewrite (int_to_float_small _ Htot).
  destruct (Z.eqb_spec (total_credits (row :: rows)) 0) as [H0|_]; [lia|].
  reflexivity.
Qed.

Lemma ips_query_returns_nil (db : DB) (nim : string) (semester : Z)
    (results : list IPSRow.t) :
  ips_query_returns db nim semester results ->
  (results = [] <-> ips_query db nim semester = []).
Proof.
  unfold ips_query_returns. intros Hp. split; intros Hnil.
  - rewrite Hnil in Hp. symmetry in Hp. apply Permutation_nil_r in Hp. exact Hp.
  - rewrite Hnil in Hp. apply Permutation_nil_r in Hp. exact Hp.
Qed.

Lemma calculate_ips_nil (request : IPSRequest.t) (db : DB) :
  calculate_ips request db [] =
  Http 404 (Msg "No KRS data found for this semester").
Proof. reflexivity. Qed.

(** ** Values cast to their columns *)

Lemma split_chars_fits (n : nat) (s : string) :
  (char_length s <= n)%nat -> split_chars n s = (s, EmptyString).
Proof.
  revert n. induction s as [|c s IH]; intros n Hn; cbn in *; [reflexivity|].
  destruct (is_continuation c).
  - rewrite (IH n Hn). reflexivity.
  - destruct n as [|n]; [lia|]. rewrite (IH n) by lia. reflexivity.
Qed.

Lemma split_chars_length (n : nat) (s : string) :
  (char_length (split_chars n s).1 <= n)%nat.
Proof.
  revert n. induction s as [|c s IH]; intros n; cbn; [lia|].
  destruct (is_continuation c) eqn:Hc.
  - cbn. rewrite Hc. apply IH.
  - destruct n as [|n]; cbn; [lia|]. rewrite Hc. specialize (IH n). lia.
Qed.

Lemma split_chars_nul (n : nat) (s : string) :
  has_nul s = false -> has_nul (split_chars n s).1 = false.
Proof.
  revert n. induction s as [|c s IH]; intros n Hs; cbn in *; [reflexivity|].
  apply orb_false_iff in Hs as [Hc Hs].
  destruct (is_continuation c).
  - cbn. rewrite Hc. apply IH, Hs.
  - destruct n as [|n]; cbn; [reflexivity|]. rewrite Hc. apply IH, Hs.
Qed.

(** A text that fits its column is stored as it is. *)
Lemma store_varchar_fits (n : nat) (s : string) :
  (char_length s <= n)%nat -> store_varchar n s = Some s.
Proof.
  intros Hn. unfold store_varchar. rewrite (split_chars_fits n s Hn). reflexivity.
Qed.

(** What is stored fits the column. *)
Lemma store_varchar_ok (n : nat) (s s' : string) :
  has_nul s = false -> store_varchar n s = Some s' -> varchar n s'.
Proof.
  unfold store_varchar. intros Hs Hst.
  destruct (all_blank (split_chars n s).2); [|discriminate].
  injection Hst as <-. split; [apply split_chars_length|apply split_chars_nul, Hs].
Qed.

Lemma store_integer_Some (z z' : Z) :
  store_integer z = Some z' -> z' = z /\ int4 z.
Proof.
  unfold store_integer, fits_integer, int4. intros Hz.
  destruct (Z.leb_spec (- 2 ^ 31) z), (Z.ltb_spec z (2 ^ 31)); cbn in Hz;
    try discriminate.
  injection Hz as <-. split; [reflexivity|split; assumption].
Qed.

Lemma store_integer_id (z : Z) : int4 z -> store_integer z = Some z.
Proof.
  unfold store_integer, fits_integer, int4. intros [H1 H2].
  destruct (Z.leb_spec (- 2 ^ 31) z), (Z.ltb_spec z (2 ^ 31)); cbn; try lia.
  reflexivity.
Qed.

Lemma store_null_varchar_ok (n : nat) (v v' : option string) :
  from_option has_nul false v = false ->
  store_null (store_varchar n) v = Some v' -> nullable (varchar n) v'.
Proof.
  destruct v as [s|]; cbn; intros Hs Hst.
  - destruct (store_varchar n s) as [s'|] eqn:Hs'; [|discriminate].
    injection Hst as <-. exact (store_varchar_ok n s s' Hs Hs').
  - injection Hst as <-. exact I.
Qed.

Lemma store_null_integer_ok (v v' : option Z) :
  store_null store_integer v = Some v' -> v' = v /\ nullable int4 v'.
Proof.
  destruct v as [z|]; cbn; intros Hst.
  - destruct (store_integer z) as [z'|] eqn:Hz; [|discriminate].
    injection Hst as <-. apply store_integer_Some in Hz as [-> Hz].
    split; [reflexivity|exact Hz].
  - injection Hst as <-. split; [reflexivity|exact I].
Qed.

Lemma store_null_varchar_id (n : nat) (v : option string) :
  nullable (varchar n) v -> store_null (store_varchar n) v = Some v.
Proof.
  destruct v as [s|]; cbn; [|reflexivity].
  intros [Hs _]. rewrite (store_varchar_fits n s Hs). reflexivity.
Qed.

Lemma store_null_integer_id (v : option Z) :
  nullable int4 v -> store_null store_integer v = Some v.
Proof.
  destruct v as [z|]; cbn; [|reflexivity].
  intros Hz. rewrite (store_integer_id z Hz). reflexivity.
Qed.

(** The row that is stored: each column is the cast of the value
    submitted, and the row satisfies its column types. *)
Lemma store_mahasiswa_Return (row stored : Mahasiswa.t) :
  store_mahasiswa row = Return stored ->
  store_varchar 10 (Mahasiswa.nim row) = Some (Mahasiswa.nim stored)
  /\ Mahasiswa.angkatan stored = Mahasiswa.angkatan row
  /\ mahasiswa_ok stored.
Proof.
  unfold store_mahasiswa, mahasiswa_ok.
  destruct (has_nul (Mahasiswa.nim row)) eqn:H1; [discriminate|].
  destruct (has_nul (Mahasiswa.nama row)) eqn:H2; [discriminate|].
  destruct (from_option has_nul false (Mahasiswa.jurusan row)) eqn:H3;
    [discriminate|]. cbn [orb].
  destruct (store_varchar 10 (Mahasiswa.nim row)) as [nim|] eqn:E1; [|discriminate].
  destruct (store_varchar 100 (Mahasiswa.nama row)) as [nama|] eqn:E2; [|discriminate].
  destruct (store_null (store_varchar 50) (Mahasiswa.jurusan row))
    as [jurusan|] eqn:E3; [|discriminate].
  destruct (store_null store_integer (Mahasiswa.angkatan row))
    as [angkatan|] eqn:E4; [|discriminate].
  intros [= <-]. cbn.
  apply store_null_integer_ok in E4 as [-> E4].
  eauto 10 using store_varchar_ok, store_null_varchar_ok.
Qed.

Lemma store_mahasiswa_id (row : Mahasiswa.t) :
  mahasiswa_ok row -> store_mahasiswa row = Return row.
Proof.
  intros ([Hn1 Hz1] & [Hn2 Hz2] & H3 & H4). unfold store_mahasiswa.
  rewrite Hz1, Hz2.
  assert (from_option has_nul false (Mahasiswa.jurusan row) = false) as ->.
  { destruct (Mahasiswa.jurusan row); [apply H3|reflexivity]. }
  cbn [orb]. rewrite (store_varchar_fits _ _ Hn1), (store_varchar_fits _ _ Hn2),
    (store_null_varchar_id _ _ H3), (store_null_integer_id _ H4).
  destruct row; reflexivity.
Qed.

Lemma store_mata_kuliah_Return (row stored : MataKuliah.t) :
  store_mata_kuliah row = Return stored ->
  store_varchar 10 (MataKuliah.kode_mk row) = Some (MataKuliah.kode_mk stored)
  /\ MataKuliah.sks stored = MataKuliah.sks row
  /\ mata_kuliah_ok stored.
Proof.
  unfold store_mata_kuliah, mata_kuliah_ok.
  destruct (has_nul (MataKuliah.kode_mk row)) eqn:H1; [discriminate|].
  destruct (has_nul (MataKuliah.nama_mk row)) eqn:H2; [discriminate|]. cbn [orb].
  destruct (store_varchar 10 (MataKuliah.kode_mk row)) as [kode|] eqn:E1;
    [|discriminate].
  destruct (store_varchar 100 (MataKuliah.nama_mk row)) as [nama|] eqn:E2;
    [|discriminate].
  destruct (store_integer (MataKuliah.sks row)) as [sks|] eqn:E3; [|discriminate].
  intros [= <-]. cbn. apply store_integer_Some in E3 as [-> E3].
  eauto 10 using store_varchar_ok.
Qed.

Lemma store_mata_kuliah_id (row : MataKuliah.t) :
  mata_kuliah_ok row -> store_mata_kuliah row = Return row.
Proof.
  intros ([Hn1 Hz1] & [Hn2 Hz2] & H3). unfold store_mata_kuliah.
  rewrite Hz1, Hz2. cbn [orb].
  rewrite (store_varchar_fits _ _ Hn1), (store_varchar_fits _ _ Hn2),
    (store_integer_id _ H3).
  destruct row; reflexivity.
Qed.

Lemma store_krs_Return (row stored : KRS.t) :
  store_krs row = Return stored ->
  KRS.id_krs stored = KRS.id_krs row
  /\ store_varchar 10 (KRS.nim row) = Some (KRS.nim stored)
  /\ store_varchar 10 (KRS.kode_mk row) = Some (KRS.kode_mk stored)
  /\ store_null (store_varchar 2) (KRS.nilai row) = Some (KRS.nilai stored)
  /\ KRS.semester stored = KRS.semester row
  /\ varchar 10 (KRS.nim stored) /\ varchar 10 (KRS.kode_mk stored)
  /\ nullable (varchar 2) (KRS.nilai stored)
  /\ nullable int4 (KRS.semester stored).
Proof.
  unfold store_krs.
  destruct (has_nul (KRS.nim row)) eqn:H1; [discriminate|].
  destruct (has_nul (KRS.kode_mk row)) eqn:H2; [discriminate|].
  destruct (from_option has_nul false (KRS.nilai row)) eqn:H3; [discriminate|].
  cbn [orb].
  destruct (store_varchar 10 (KRS.nim row)) as [nim|] eqn:E1; [|discriminate].
  destruct (store_varchar 10 (KRS.kode_mk row)) as [kode|] eqn:E2; [|discriminate].
  destruct (store_null (store_varchar 2) (KRS.nilai row)) as [nilai|] eqn:E3;
    [|discriminate].
  destruct (store_null store_integer (KRS.semester row)) as [semester|] eqn:E4;
    [|discriminate].
  intros [= <-]. cbn. apply store_null_integer_ok in E4 as [-> E4].
  eauto 12 using store_varchar_ok, store_null_varchar_ok.
Qed.

Lemma store_krs_id (row : KRS.t) :
  varchar 10 (KRS.nim row) -> varchar 10 (KRS.kode_mk row) ->
  nullable (varchar 2) (KRS.nilai row) -> nullable int4 (KRS.semester row) ->
  store_krs row = Return row.
Proof.
  intros [Hn1 Hz1] [Hn2 Hz2] H3 H4. unfold store_krs.
  rewrite Hz1, Hz2.
  assert (from_option has_nul false (KRS.nilai row) = false) as ->.
  { destruct (KRS.nilai row); [apply H3|reflexivity]. }
  cbn [orb]. rewrite (store_varchar_fits _ _ Hn1), (store_varchar_fits _ _ Hn2),
    (store_null_varchar_id _ _ H3), (store_null_integer_id _ H4).
  destruct row; reflexivity.
Qed.

(** A grade that is submitted is stored as a grade, never as NULL. *)
Lemma store_krs_grade (row stored : KRS.t) :
  store_krs row = Return stored -> is_Some (KRS.nilai row) -> is_Some (KRS.nilai stored).
Proof.
  intros (_ & _ & _ & Hg & _)%store_krs_Return [g Hrow]. rewrite Hrow in Hg.
  cbn in Hg. destruct (store_varchar 2 g); [|discriminate].
  injection Hg as <-. eauto.
Qed.

(** ** Joins on a key *)

Lemma fmap_filter {A B} (f : A -> B) (P : B -> Prop) (Q : A -> Prop)
    `{forall y, Decision (P y)} `{forall x, Decision (Q x)} (l : list A) :
  (forall x, x ∈ l -> (Q x <-> P (f x))) ->
  f <$> filter Q l = filter P (f <$> l).
Proof.
  induction l as [|x l IH]; intros Hiff; [reflexivity|].
  assert (Hx : Q x <-> P (f x)) by apply Hiff, list_elem_of_here.
  assert (IH' : f <$> filter Q l = filter P (f <$> l)).
  { apply IH. intros y Hy. apply Hiff, list_elem_of_further, Hy. }
  rewrite fmap_cons, !filter_cons.
  destruct (decide (Q x)), (decide (P (f x))); try tauto.
  rewrite fmap_cons, IH'. reflexivity.
Qed.

Section join_key.
Context {A B K : Type} (on : A * B -> Prop) `{forall p, Decision (on p)}.
Context (g : B -> K).
Hypothesis on_key : forall a b1 b2, on (a, b1) -> on (a, b2) -> g b1 = g b2.

(** A left row that has a partner in a right table with unique keys occurs
    once in the join, and one without a partner does not occur. *)
Lemma join_key_fst (l : list A) (r : list B) :
  NoDup (g <$> r) ->
  fst <$> join on l r = filter (fun a => Exists (fun b => on (a, b)) r) l.
Proof.
  intros Hnd. induction l as [|a l IH]; [reflexivity|].
  rewrite join_cons_l, fmap_app, IH, filter_cons. clear IH.
  destruct (decide (Exists (fun b => on (a, b)) r)) as [Hex|Hno].
  - change (a :: ?t) with ([a] ++ t). f_equal.
    pose proof (filter_key_length on g a r (on_key a) Hnd) as Hlen.
    apply Exists_exists in Hex as (b & Hb & Hon).
    assert (Hin : (a, b) ∈ filter on (pair a <$> r)).
    { apply list_elem_of_filter. split; [exact Hon|].
      apply list_elem_of_fmap. eauto. }
    destruct (filter on (pair a <$> r)) as [|p [|q t]] eqn:Hf.
    + inversion Hin.
    + apply list_elem_of_singleton in Hin as <-. reflexivity.
    + cbn in Hlen. lia.
  - assert (filter on (pair a <$> r) = []) as ->; [|reflexivity].
    apply elem_of_nil_inv. intros p [Hon Hp]%list_elem_of_filter.
    apply list_elem_of_fmap in Hp as (b & -> & Hb).
    apply Hno, Exists_exists. eauto.
Qed.
End join_key.


Lemma filter_Forall_id {A} (P : A -> Prop) `{forall x, Decision (P x)} (l : list A) :
  Forall P l -> filter P l = l.
Proof.
  induction 1 as [|x l Hx _ IH]; [reflexivity|].
  rewrite filter_cons_True by exact Hx. rewrite IH. reflexivity.
Qed.

(** ** One row per enrollment *)


Lemma join_mata_kuliah_enrollments (db : DB) :
  NoDup (MataKuliah.kode_mk <$> mata_kuliah db) -> fk_ok db ->
  fst <$> join (fun p : KRS.t * MataKuliah.t => KRS.kode_mk p.1 = MataKuliah.kode_mk p.2)
            (krs db) (mata_kuliah db) = krs db.
Proof.
  intros Hmk Hfk.
  rewrite (join_key_fst _ MataKuliah.kode_mk); [|cbn; congruence|exact Hmk].
  apply filter_Forall_id. eapply Forall_impl; [exact Hfk|].
  intros k (_ & Hc & _). apply list_elem_of_fmap in Hc as (c & Hc & Hin).
  apply Exists_exists. eauto.
Qed.


(** Likewise the joins of the IPS query keep the graded enrollments. *)
Lemma ips_query_enrollments (db : DB) (nim : string) (semester : Z) :
  schema_ok db -> fk_ok db ->
  IPSRow.nilai <$> ips_query db nim semester =
  KRS.nilai <$> filter (graded nim semester) (krs db).
Proof.
  intros (_ & Hmk & Hbn & _) Hfk. unfold ips_query.
  pose proof (join_mata_kuliah_enrollments db Hmk Hfk) as Hj.
  rewrite <- list_fmap_compose.
  change (IPSRow.nilai ∘ _) with
    (KRS.nilai ∘ (@fst KRS.t MataKuliah.t ∘ @fst (KRS.t * MataKuliah.t) BobotNilai.t)).
  rewrite !list_fmap_compose. f_equal.
  rewrite (fmap_filter fst
             (fun p : KRS.t * MataKuliah.t =>
                KRS.nim p.1 = nim /\ KRS.semester p.1 = Some semester)
             (fun r : KRS.t * MataKuliah.t * BobotNilai.t =>
                KRS.nim r.1.1 = nim /\ KRS.semester r.1.1 = Some semester))
    by (intros; reflexivity).
  rewrite (join_key_fst _ BobotNilai.nilai); [|cbn; congruence|exact Hbn].
  rewrite list_filter_filter.
  erewrite (fmap_filter fst (graded nim semester)); [rewrite Hj; reflexivity|].
  intros [k c] Hin. unfold graded. cbn.
  assert (Hk : k ∈ krs db).
  { rewrite <- Hj. apply list_elem_of_fmap. exists (k, c). auto. }
  unfold fk_ok in Hfk. rewrite Forall_forall in Hfk. destruct (Hfk k Hk) as (_ & _ & Hg).
  rewrite Exists_exists. split.
  - intros ([Hn Hs] & b & Hb & Hgb). rewrite Hgb. eauto.
  - intros (Hn & Hs & g & Hgk). split; [auto|]. rewrite Hgk in Hg |- *.
    apply list_elem_of_fmap in Hg as (b & -> & Hb). eauto.
Qed.




(** ** Inserts: what a request can do to the database *)

Lemma head_filter_snoc {A} (P : A -> Prop) `{forall x, Decision (P x)}
    (l : list A) (x : A) :
  head (filter P (l ++ [x])) =
  match head (filter P l) with
  | Some y => Some y
  | None => if decide (P x) then Some x else None
  end.
Proof.
  rewrite filter_app, filter_cons, filter_nil.
  destruct (filter P l) as [|y t]; [|reflexivity].
  cbn. destruct (decide (P x)); reflexivity.
Qed.

Lemma head_filter_Some {A} (P : A -> Prop) `{forall x, Decision (P x)}
    (l : list A) (y : A) :
  head (filter P l) = Some y -> y ∈ l /\ P y.
Proof.
  intros Hh. assert (Hy : y ∈ filter P l).
  { destruct (filter P l) as [|z t]; [discriminate|].
    injection Hh as ->. apply list_elem_of_here. }
  apply list_elem_of_filter in Hy. tauto.
Qed.

Lemma head_filter_None {A} (P : A -> Prop) `{forall x, Decision (P x)} (l : list A) :
  (forall y, y ∈ l -> ~ P y) -> head (filter P l) = None.
Proof.
  intros Hno. destruct (filter P l) as [|z t] eqn:Hf; [reflexivity|].
  assert (Hz : z ∈ filter P l) by (rewrite Hf; apply list_elem_of_here).
  apply list_elem_of_filter in Hz as [Hz Hin]. destruct (Hno z Hin Hz).
Qed.

Lemma catch_all_Raise {A} (e : raised) :
  exists d, catch_all (A := A) (Raise e) = Http 500 d.
Proof. destruct e; eexists; reflexivity. Qed.

(** The outcomes of [create_mahasiswa]: the statement fails and nothing
    changes; or the row is stored, and the answer depends on whether
    [db.refresh] finds a row under the nim that was submitted. *)
Lemma create_mahasiswa_cases (mhs : MahasiswaSchema.t) (db db' : DB)
    (r : response (created Mahasiswa.t)) :
  create_mahasiswa mhs db = (r, db') ->
  ((exists d, r = Http 500 d) /\ db' = db) \/
  (exists stored,
     store_mahasiswa
       (Mahasiswa.mk (MahasiswaSchema.nim mhs) (MahasiswaSchema.nama mhs)
          (Some (MahasiswaSchema.jurusan mhs)) (Some (MahasiswaSchema.angkatan mhs)))
     = Return stored /\
     (Mahasiswa.nim stored ∉ Mahasiswa.nim <$> mahasiswa db) /\
     db' = with_mahasiswa db (mahasiswa db ++ [stored]) /\
     match first_mahasiswa db' (MahasiswaSchema.nim mhs) with
     | Some m => r = Ok {| message := "Mahasiswa created successfully"; data := m |}
     | None => r = Http 500 (StrOf InvalidRequestError)
     end).
Proof.
  unfold create_mahasiswa, insert_mahasiswa.
  destruct (store_mahasiswa _) as [stored|e] eqn:Hst; cbn [bind].
  2:{ intros [= <- <-]. left. split; [apply catch_all_Raise|reflexivity]. }
  case_bool_decide as Hin; [intros [= <- <-]; left; eauto|].
  cbn [Mahasiswa.nim].
  destruct (first_mahasiswa _ (MahasiswaSchema.nim mhs)) as [m|] eqn:Hf;
    intros [= <- <-]; right; exists stored;
    (split; [reflexivity|]); (split; [exact Hin|]); (split; [reflexivity|]);
    unfold with_mahasiswa; rewrite Hf; reflexivity.
Qed.

(** In a database whose nims fit their column, the row that [db.refresh]
    finds is the row just stored, under the nim that was submitted. *)
Lemma create_mahasiswa_refresh (mhs : MahasiswaSchema.t) (db : DB)
    (stored m : Mahasiswa.t) :
  Forall mahasiswa_ok (mahasiswa db) ->
  store_mahasiswa
    (Mahasiswa.mk (MahasiswaSchema.nim mhs) (MahasiswaSchema.nama mhs)
       (Some (MahasiswaSchema.jurusan mhs)) (Some (MahasiswaSchema.angkatan mhs)))
  = Return stored ->
  (Mahasiswa.nim stored ∉ Mahasiswa.nim <$> mahasiswa db) ->
  first_mahasiswa (with_mahasiswa db (mahasiswa db ++ [stored])) (MahasiswaSchema.nim mhs)
  = Some m ->
  m = stored /\ Mahasiswa.nim stored = MahasiswaSchema.nim mhs.
Proof.
  intros Hcols Hst Hnew. unfold first_mahasiswa. cbn [with_mahasiswa mahasiswa].
  rewrite head_filter_snoc.
  destruct (head (filter _ (mahasiswa db))) as [y|] eqn:Hy.
  - exfalso. apply head_filter_Some in Hy as [Hy Hnim].
    rewrite Forall_forall in Hcols. destruct (Hcols y Hy) as ([Hlen _] & _).
    apply store_mahasiswa_Return in Hst as (Hst & _). cbn in Hst.
    rewrite <- Hnim, (store_varchar_fits _ _ Hlen) in Hst. injection Hst as Hst.
    apply Hnew. rewrite <- Hst. apply list_elem_of_fmap. eauto.
  - destruct (decide (Mahasiswa.nim stored = MahasiswaSchema.nim mhs));
      [|discriminate].
    intros [= <-]. auto.
Qed.

Lemma create_mahasiswa_Ok (mhs : MahasiswaSchema.t) (db db' : DB)
    (c : created Mahasiswa.t) :
  Forall mahasiswa_ok (mahasiswa db) ->
  create_mahasiswa mhs db = (Ok c, db') ->
  store_mahasiswa
    (Mahasiswa.mk (MahasiswaSchema.nim mhs) (MahasiswaSchema.nama mhs)
       (Some (MahasiswaSchema.jurusan mhs)) (Some (MahasiswaSchema.angkatan mhs)))
  = Return (data c) /\
  Mahasiswa.nim (data c) = MahasiswaSchema.nim mhs /\
  (MahasiswaSchema.nim mhs ∉ Mahasiswa.nim <$> mahasiswa db) /\
  db' = with_mahasiswa db (mahasiswa db ++ [data c]).
Proof.
  intros Hcols Hc.
  destruct (create_mahasiswa_cases _ _ _ _ Hc)
    as [[[d [=]] _]|(stored & Hst & Hnew & -> & Hr)].
  destruct (first_mahasiswa _ _) as [m|] eqn:Hf; [|discriminate].
  injection Hr as ->. cbn [data].
  destruct (create_mahasiswa_refresh _ _ _ _ Hcols Hst Hnew Hf) as [-> Hnim].
  split; [exact Hst|]. split; [exact Hnim|].
  split; [rewrite <- Hnim; exact Hnew|reflexivity].
Qed.

(** The same for [create_matakuliah]. *)
Lemma create_matakuliah_cases (mk : MataKuliahSchema.t) (db db' : DB)
    (r : response (created MataKuliah.t)) :
  create_matakuliah mk db = (r, db') ->
  ((exists d, r = Http 500 d) /\ db' = db) \/
  (exists stored,
     store_mata_kuliah
       (MataKuliah.mk (MataKuliahSchema.kode_mk mk) (MataKuliahSchema.nama_mk mk)
          (MataKuliahSchema.sks mk))
     = Return stored /\
     (MataKuliah.kode_mk stored ∉ MataKuliah.kode_mk <$> mata_kuliah db) /\
     db' = with_mata_kuliah db (mata_kuliah db ++ [stored]) /\
     match first_mata_kuliah db' (MataKuliahSchema.kode_mk mk) with
     | Some m => r = Ok {| message := "Mata kuliah created successfully"; data := m |}
     | None => r = Http 500 (StrOf InvalidRequestError)
     end).
Proof.
  unfold create_matakuliah, insert_mata_kuliah.
  destruct (store_mata_kuliah _) as [stored|e] eqn:Hst; cbn [bind].
  2:{ intros [= <- <-]. left. split; [apply catch_all_Raise|reflexivity]. }
  case_bool_decide as Hin; [intros [= <- <-]; left; eauto|].
  cbn [MataKuliah.kode_mk].
  destruct (first_mata_kuliah _ (MataKuliahSchema.kode_mk mk)) as [m|] eqn:Hf;
    intros [= <- <-]; right; exists stored;
    (split; [reflexivity|]); (split; [exact Hin|]); (split; [reflexivity|]);
    unfold with_mata_kuliah; rewrite Hf; reflexivity.
Qed.

Lemma create_matakuliah_refresh (mk : MataKuliahSchema.t) (db : DB)
    (stored m : MataKuliah.t) :
  Forall mata_kuliah_ok (mata_kuliah db) ->
  store_mata_kuliah
    (MataKuliah.mk (MataKuliahSchema.kode_mk mk) (MataKuliahSchema.nama_mk mk)
       (MataKuliahSchema.sks mk))
  = Return stored ->
  (MataKuliah.kode_mk stored ∉ MataKuliah.kode_mk <$> mata_kuliah db) ->
  first_mata_kuliah (with_mata_kuliah db (mata_kuliah db ++ [stored]))
    (MataKuliahSchema.kode_mk mk)
  = Some m ->
  m = stored /\ MataKuliah.kode_mk stored = MataKuliahSchema.kode_mk mk.
Proof.
  intros Hcols Hst Hnew. unfold first_mata_kuliah. cbn [with_mata_kuliah mata_kuliah].
  rewrite head_filter_snoc.
  destruct (head (filter _ (mata_kuliah db))) as [y|] eqn:Hy.
  - exfalso. apply head_filter_Some in Hy as [Hy Hkode].
    rewrite Forall_forall in Hcols. destruct (Hcols y Hy) as ([Hlen _] & _).
    apply store_mata_kuliah_Return in Hst as (Hst & _). cbn in Hst.
    rewrite <- Hkode, (store_varchar_fits _ _ Hlen) in Hst. injection Hst as Hst.
    apply Hnew. rewrite <- Hst. apply list_elem_of_fmap. eauto.
  - destruct (decide (MataKuliah.kode_mk stored = MataKuliahSchema.kode_mk mk));
      [|discriminate].
    intros [= <-]. auto.
Qed.

Lemma create_matakuliah_Ok (mk : MataKuliahSchema.t) (db db' : DB)
    (c : created MataKuliah.t) :
  Forall mata_kuliah_ok (mata_kuliah db) ->
  create_matakuliah mk db = (Ok c, db') ->
  store_mata_kuliah
    (MataKuliah.mk (MataKuliahSchema.kode_mk mk) (MataKuliahSchema.nama_mk mk)
       (MataKuliahSchema.sks mk))
  = Return (data c) /\
  MataKuliah.kode_mk (data c) = MataKuliahSchema.kode_mk mk /\
  (MataKuliahSchema.kode_mk mk ∉ MataKuliah.kode_mk <$> mata_kuliah db) /\
  db' = with_mata_kuliah db (mata_kuliah db ++ [data c]).
Proof.
  intros Hcols Hc.
  destruct (create_matakuliah_cases _ _ _ _ Hc)
    as [[[d [=]] _]|(stored & Hst & Hnew & -> & Hr)].
  destruct (first_mata_kuliah _ _) as [m|] eqn:Hf; [|discriminate].
  injection Hr as ->. cbn [data].
  destruct (create_matakuliah_refresh _ _ _ _ Hcols Hst Hnew Hf) as [-> Hkode].
  split; [exact Hst|]. split; [exact Hkode|].
  split; [rewrite <- Hkode; exact Hnew|reflexivity].
Qed.

(** The two outcomes of [create_krs]: the row is reloaded by the id that
    the store assigned, which finds it. *)
Lemma create_krs_cases (nextval : DB -> Z) (krs0 : KRSSchema.t) (db db' : DB)
    (r : response (created KRS.t)) :
  create_krs nextval krs0 db = (r, db') ->
  ((exists d, r = Http 500 d) /\ db' = db) \/
  (exists stored,
     store_krs
       (KRS.mk (nextval db) (KRSSchema.nim krs0) (KRSSchema.kode_mk krs0)
          (Some (KRSSchema.nilai krs0)) (Some (KRSSchema.semester krs0)))
     = Return stored /\
     r = Ok {| message := "KRS created successfully"; data := stored |} /\
     db' = with_krs db (krs db ++ [stored]) /\
     (KRS.id_krs stored ∉ KRS.id_krs <$> krs db) /\
     references_ok db stored).
Proof.
  unfold create_krs, insert_krs.
  destruct (store_krs _) as [stored|e] eqn:Hst; cbn [bind].
  2:{ intros [= <- <-]. left. split; [apply catch_all_Raise|reflexivity]. }
  case_bool_decide as Hid; [intros [= <- <-]; left; eauto|].
  assert (Href : references_ok db stored \/
                 negb (bool_decide (KRS.nim stored ∈ Mahasiswa.nim <$> mahasiswa db)
                       && bool_decide (KRS.kode_mk stored
                                         ∈ MataKuliah.kode_mk <$> mata_kuliah db)
                       && from_option
                            (fun g => bool_decide (g ∈ BobotNilai.nilai <$> bobot_nilai db))
                            true (KRS.nilai stored)) = true).
  { unfold references_ok.
    case_bool_decide as Hs; cbn [andb negb]; [|auto].
    case_bool_decide as Hc; cbn [andb negb]; [|auto].
    destruct (KRS.nilai stored) as [g|]; cbn [from_option]; [|auto].
    case_bool_decide as Hg; cbn [negb]; auto. }
  destruct Href as [Href|Hno].
  2:{ rewrite Hno. intros [= <- <-]. left. eauto. }
  assert (negb (bool_decide (KRS.nim stored ∈ Mahasiswa.nim <$> mahasiswa db)
                && bool_decide (KRS.kode_mk stored
                                  ∈ MataKuliah.kode_mk <$> mata_kuliah db)
                && from_option
                     (fun g => bool_decide (g ∈ BobotNilai.nilai <$> bobot_nilai db))
                     true (KRS.nilai stored)) = false) as ->.
  { destruct Href as (Hs & Hc & Hg).
    rewrite (bool_decide_eq_true_2 _ Hs), (bool_decide_eq_true_2 _ Hc).
    destruct (KRS.nilai stored) as [g|]; cbn [from_option andb negb];
      [rewrite (bool_decide_eq_true_2 _ Hg)|]; reflexivity. }
  cbn [KRS.id_krs].
  assert (Hf : first_krs {| mahasiswa := mahasiswa db; mata_kuliah := mata_kuliah db;
                            krs := krs db ++ [stored]; bobot_nilai := bobot_nilai db |}
                 (nextval db) = Some stored).
  { unfold first_krs. cbn [krs]. rewrite head_filter_snoc.
    apply store_krs_Return in Hst as (Hidst & _). cbn in Hidst.
    rewrite head_filter_None.
    - rewrite decide_True by exact Hidst. reflexivity.
    - intros y Hy Hyid. apply Hid. rewrite Hidst, <- Hyid.
      apply list_elem_of_fmap. eauto. }
  rewrite Hf. intros [= <- <-]. right. exists stored. auto 10.
Qed.

Lemma references_ok_mono (db db' : DB) (k : KRS.t) :
  (forall x, x ∈ (Mahasiswa.nim <$> mahasiswa db) -> x ∈ (Mahasiswa.nim <$> mahasiswa db')) ->
  (forall x, x ∈ (MataKuliah.kode_mk <$> mata_kuliah db) ->
             x ∈ (MataKuliah.kode_mk <$> mata_kuliah db')) ->
  bobot_nilai db' = bobot_nilai db ->
  references_ok db k -> references_ok db' k.
Proof.
  intros Hs Hc Hb (H1 & H2 & H3). unfold references_ok. rewrite Hb. auto.
Qed.

Lemma NoDup_snoc_fmap {A K} (f : A -> K) (l : list A) (x : A) :
  NoDup (f <$> l) -> f x ∉ (f <$> l) -> NoDup (f <$> l ++ [x]).
Proof.
  intros Hnd Hx. rewrite fmap_app. apply NoDup_app. split; [exact Hnd|].
  split; [|apply NoDup_singleton].
  intros y Hy Hy'. apply list_elem_of_singleton in Hy'. cbn in Hy'. congruence.
Qed.

(** A student row added to the table keeps the keys and the references. *)
Lemma insert_mahasiswa_row_integrity (db : DB) (row : Mahasiswa.t) :
  schema_ok db -> fk_ok db ->
  (Mahasiswa.nim row ∉ Mahasiswa.nim <$> mahasiswa db) ->
  schema_ok (with_mahasiswa db (mahasiswa db ++ [row]))
  /\ fk_ok (with_mahasiswa db (mahasiswa db ++ [row])).
Proof.
  intros (H1 & H2 & H3 & H4 & H5 & H6) Hfk Hnew. split.
  - unfold schema_ok. cbn [with_mahasiswa mahasiswa mata_kuliah krs bobot_nilai].
    repeat split; try assumption. apply NoDup_snoc_fmap; assumption.
  - unfold fk_ok. cbn [with_mahasiswa krs]. eapply Forall_impl; [exact Hfk|].
    intros k. apply references_ok_mono; cbn; [|auto..].
    intros x Hx. rewrite fmap_app. apply elem_of_app. auto.
Qed.

Lemma insert_mata_kuliah_row_integrity (db : DB) (row : MataKuliah.t) :
  schema_ok db -> fk_ok db -> int4 (MataKuliah.sks row) ->
  (MataKuliah.kode_mk row ∉ MataKuliah.kode_mk <$> mata_kuliah db) ->
  schema_ok (with_mata_kuliah db (mata_kuliah db ++ [row]))
  /\ fk_ok (with_mata_kuliah db (mata_kuliah db ++ [row])).
Proof.
  intros (H1 & H2 & H3 & H4 & H5 & H6) Hfk Hsks Hnew. split.
  - unfold schema_ok. cbn [with_mata_kuliah mahasiswa mata_kuliah krs bobot_nilai].
    repeat split; try assumption; [apply NoDup_snoc_fmap; assumption|].
    apply Forall_app. split; [exact H6|]. constructor; [exact Hsks|constructor].
  - unfold fk_ok. cbn [with_mata_kuliah krs]. eapply Forall_impl; [exact Hfk|].
    intros k. apply references_ok_mono; cbn; [auto| |auto].
    intros x Hx. rewrite fmap_app. apply elem_of_app. auto.
Qed.

Lemma insert_krs_row_integrity (db : DB) (row : KRS.t) :
  schema_ok db -> fk_ok db -> int8 (KRS.id_krs row) ->
  (KRS.id_krs row ∉ KRS.id_krs <$> krs db) -> references_ok db row ->
  schema_ok (with_krs db (krs db ++ [row])) /\ fk_ok (with_krs db (krs db ++ [row])).
Proof.
  intros (H1 & H2 & H3 & H4 & H5 & H6) Hfk Hid Hnew Href. split.
  - unfold schema_ok. cbn [with_krs mahasiswa mata_kuliah krs bobot_nilai].
    repeat split; try assumption; [apply NoDup_snoc_fmap; assumption|].
    apply Forall_app. split; [exact H5|]. constructor; [exact Hid|constructor].
  - unfold fk_ok. cbn [with_krs krs]. apply Forall_app. split.
    + eapply Forall_impl; [exact Hfk|]. intros k. apply references_ok_mono; cbn; auto.
    + constructor; [|constructor]. revert Href. apply references_ok_mono; cbn; auto.
Qed.

(** * The claims *)

(** ** IPS: formula and row order (C1) *)

Lemma total_credits_pos (rows : list IPSRow.t) :
  rows <> [] -> Forall (fun row => 0 < IPSRow.sks row) rows -> 0 < total_credits rows.
Proof.
  unfold total_credits. intros Hne Hall.
  induction Hall as [|row rows Hrow Hall IH]; [congruence|].
  rewrite fmap_cons. cbn [foldr].
  destruct rows as [|row' rows]; [cbn; lia|].
  assert (0 < foldr Z.add 0 (IPSRow.sks <$> row' :: rows)) by (apply IH; congruence).
  lia.
Qed.

(** The two sample lists are the rows that the query selects for term 2. *)
Lemma sample_rows_returned :
  ips_query_returns sample_db "S1" 2 sample_rows /\
  ips_query_returns sample_db "S1" 2 sample_rows_swapped.
Proof.
  unfold ips_query_returns. split.
  - vm_compute. reflexivity.
  - vm_compute. apply perm_skip, perm_swap.
Qed.

(** The specification's worked example: 3 credits at 4.0 and 2 credits at
    3.0 give 18.0 over 5 credits, an IPS of 3.6. *)
Example calculate_ips_worked_example :
  exists data,
    calculate_ips (IPSRequest.mk "S1" 1) sample_db (ips_query sample_db "S1" 1)
      = Ok data /\
    IPSData.ips data = PyFloat (36 / 10) /\
    IPSData.total_sks data = 5 /\
    IPSData.total_bobot data = 18%float.
Proof. eexists. split; [vm_compute; reflexivity|]. repeat split. Qed.

(** C1, as stated, fails: the same three enrollments (1 credit at 4.0,
    1 credit at 3.7, 2 credits at 1.7) of the same database, returned by the
    query in two different orders, give an IPS of 2.77 in one order and 2.78
    in the other. *)
Lemma calculate_ips_row_order_counterexample :
  ips_query_returns sample_db "S1" 2 sample_rows /\
  ips_query_returns sample_db "S1" 2 sample_rows_swapped /\
  exists data data',
    calculate_ips (IPSRequest.mk "S1" 2) sample_db sample_rows = Ok data /\
    calculate_ips (IPSRequest.mk "S1" 2) sample_db sample_rows_swapped = Ok data' /\
    IPSData.ips data = PyFloat (277 / 100) /\
    IPSData.ips data' = PyFloat (278 / 100) /\
    IPSData.ips data <> IPSData.ips data'.
Proof.
  unfold ips_query_returns. split; [|split].
  - vm_compute. reflexivity.
  - vm_compute. apply perm_skip, perm_swap.
  - eexists _, _. split; [vm_compute; reflexivity|].
    split; [vm_compute; reflexivity|].
    split; [reflexivity|]. split; [reflexivity|].
    cbn. intros Heq.
    apply (f_equal (fun v => match v with
                             | PyFloat f => Prim2SF f
                             | PyInt _ => S754_nan
                             end)) in Heq.
    vm_compute in Heq. discriminate.
Qed.

(** C1, amended.  Under the schema, for a request whose selected rows have
    a positive credit total [C = sum of credit_units_i], and for every order
    in which the store returns these rows, [calculate_ips] answers with
    [total_sks = C] and [ips = round(S / C, 2)], where [S] is the
    double-precision sum of the unrounded products
    [weight_i * credit_units_i], accumulated in the order in which the rows
    were returned.  [C] is the same for every order; [S], and with it
    [ips], is that of the order returned. *)
Theorem calculate_ips_formula (request : IPSRequest.t) (db : DB)
    (results : list IPSRow.t) :
  let rows := ips_query db (IPSRequest.nim request) (IPSRequest.semester request) in
  schema_ok db ->
  ips_query_returns db (IPSRequest.nim request) (IPSRequest.semester request) results ->
  0 < total_credits rows ->
  exists data,
    calculate_ips request db results = Ok data /\
    IPSData.total_sks data = total_credits rows /\
    IPSData.ips data =
      PyFloat (round2 (float_sum (weighted <$> results)
                       / float_of_Z (total_credits rows))).
Proof.
  intros rows Hok Hp Hpos.
  pose proof (total_credits_Permutation _ _ Hp) as Htot. fold rows in Htot.
  assert (Hne : results <> []).
  { intros ->. cbn in Htot. lia. }
  eexists. split; [apply calculate_ips_ok; assumption|].
  cbn [ips_payload IPSData.ips IPSData.total_sks]. split; [exact Htot|].
  unfold guarded_ips, total_weighted. rewrite Htot.
  destruct (Z.ltb_spec 0 (total_credits rows)); [reflexivity|lia].
Qed.

Lemma calculate_ips_formula_witness :
  schema_ok sample_db /\
  ips_query_returns sample_db "S1" 2 sample_rows_swapped /\
  0 < total_credits (ips_query sample_db "S1" 2) /\
  (exists data,
     calculate_ips (IPSRequest.mk "S1" 2) sample_db sample_rows_swapped = Ok data /\
     IPSData.total_sks data = 4 /\
     IPSData.ips data = PyFloat (278 / 100)).
Proof.
  assert (Hok : schema_ok sample_db)
    by (apply (bool_decide_unpack _); vm_compute; exact I).
  assert (Hp : ips_query_returns sample_db "S1" 2 sample_rows_swapped)
    by (vm_compute; apply perm_skip, perm_swap).
  assert (Hpos : 0 < total_credits (ips_query sample_db "S1" 2))
    by (vm_compute; reflexivity).
  split; [exact Hok|]. split; [exact Hp|]. split; [exact Hpos|].
  destruct (calculate_ips_formula (IPSRequest.mk "S1" 2) sample_db _ Hok Hp Hpos)
    as (data & Hdata & Htot & Hips).
  exists data. split; [exact Hdata|]. split.
  - rewrite Htot. vm_compute. reflexivity.
  - rewrite Hips. vm_compute. reflexivity.
Defined.

(** ** IPS: empty join (C2) *)

(** C2.  When the join of the enrollments of (student, term) with the
    courses and the grade weights has no rows, [calculate_ips] answers
    404 Not Found, and so returns no payload. *)
Theorem calculate_ips_not_found (request : IPSRequest.t) (db : DB)
    (results : list IPSRow.t) :
  ips_query_returns db (IPSRequest.nim request) (IPSRequest.semester request) results ->
  ips_query db (IPSRequest.nim request) (IPSRequest.semester request) = [] ->
  calculate_ips request db results =
    Http 404 (Msg "No KRS data found for this semester") /\
  (forall data, calculate_ips request db results <> Ok data).
Proof.
  intros Hp Hq. apply (ips_query_returns_nil _ _ _ _ Hp) in Hq. subst results.
  split; [reflexivity|]. intros data. discriminate.
Qed.

Lemma calculate_ips_not_found_witness :
  ips_query_returns sample_db "S1" 4 [] /\
  ips_query sample_db "S1" 4 = [] /\
  calculate_ips (IPSRequest.mk "S1" 4) sample_db [] =
    Http 404 (Msg "No KRS data found for this semester").
Proof.
  assert (Hp : ips_query_returns sample_db "S1" 4 []) by (vm_compute; reflexivity).
  assert (Hq : ips_query sample_db "S1" 4 = []) by (vm_compute; reflexivity).
  split; [exact Hp|]. split; [exact Hq|].
  apply (calculate_ips_not_found (IPSRequest.mk "S1" 4) sample_db [] Hp Hq).
Defined.

(** ** IPS: rounding only for display (C3) *)

(** Summing the rounded per-row values would give another total: three rows
    of one credit at weight 3.333 sum to 9.999, displayed as 10.0, while
    their displayed values 3.33 sum to 9.99. *)
Example rounded_rows_sum_differs :
  let rows := [IPSRow.mk 1 (3333 / 1000)%float "a" (Some "X");
               IPSRow.mk 1 (3333 / 1000)%float "b" (Some "X");
               IPSRow.mk 1 (3333 / 1000)%float "c" (Some "X")] in
  round2 (total_weighted rows) = 10%float /\
  round2 (float_sum (IPSDetail.bobot_x_sks <$> (detail_of <$> rows))) = (999 / 100)%float.
Proof. split; vm_compute; reflexivity. Qed.

(** C3.  In the answer of [calculate_ips], whatever the order in which the
    store returned the rows, [total_bobot] is the rounding of the sum of
    the unrounded products of the rows (accumulated in the order returned),
    [ips] is the rounding of that unrounded sum divided by the credit total
    (or the int 0 of the guard), and each row's [bobot_x_sks] is the
    rounding of its own unrounded product: every sum is taken over
    unrounded values. *)
Theorem calculate_ips_rounds_for_display (request : IPSRequest.t) (db : DB)
    (results : list IPSRow.t) :
  schema_ok db ->
  ips_query_returns db (IPSRequest.nim request) (IPSRequest.semester request) results ->
  results <> [] ->
  exists data,
    calculate_ips request db results = Ok data /\
    IPSData.total_bobot data = round2 (float_sum (weighted <$> results)) /\
    IPSData.ips data =
      (if 0 <? total_credits results
       then PyFloat (round2 (float_sum (weighted <$> results)
                             / float_of_Z (total_credits results)))
       else PyInt 0) /\
    IPSDetail.bobot_x_sks <$> IPSData.details data =
      (fun row => round2 (weighted row)) <$> results.
Proof.
  intros Hok Hp Hne. eexists. split; [apply calculate_ips_ok; assumption|].
  cbn [ips_payload IPSData.total_bobot IPSData.ips IPSData.details].
  split; [reflexivity|]. split.
  - unfold guarded_ips, total_weighted.
    destruct (0 <? total_credits _); reflexivity.
  - rewrite <- list_fmap_compose. reflexivity.
Qed.

Lemma calculate_ips_rounds_for_display_witness :
  schema_ok sample_db /\
  ips_query_returns sample_db "S1" 2 sample_rows_swapped /\
  exists data,
    calculate_ips (IPSRequest.mk "S1" 2) sample_db sample_rows_swapped = Ok data /\
    IPSData.total_bobot data = (111 / 10)%float /\
    IPSData.ips data = PyFloat (278 / 100) /\
    IPSDetail.bobot_x_sks <$> IPSData.details data =
      [4%float; (34 / 10)%float; (37 / 10)%float].
Proof.
  assert (Hok : schema_ok sample_db)
    by (apply (bool_decide_unpack _); vm_compute; exact I).
  assert (Hp : ips_query_returns sample_db "S1" 2 sample_rows_swapped)
    by (vm_compute; apply perm_skip, perm_swap).
  split; [exact Hok|]. split; [exact Hp|].
  destruct (calculate_ips_rounds_for_display (IPSRequest.mk "S1" 2) sample_db _ Hok Hp)
    as (data & Hdata & Htot & Hips & Hrows); [discriminate|].
  exists data. split; [exact Hdata|].
  split; [rewrite Htot; vm_compute; reflexivity|].
  split; [rewrite Hips; vm_compute; reflexivity|].
  rewrite Hrows. vm_compute. reflexivity.
Defined.

(** ** IPS: the guard of the division (C8) *)

(** Dividing by the int 0 raises: this is what the guard is there for. *)
Lemma float_div_int_zero (x : float) :
  float_div_int x 0 = Raise (Exception ZeroDivisionError).
Proof. reflexivity. Qed.

(** C8.  Under the schema and for a non-empty list of rows, whatever their
    order, the division step never raises: the request is answered.  When
    the credit total is 0 the answer carries [ips = 0], where the division
    itself would have raised [ZeroDivisionError]; and when every joined
    course has positive credit units the total is positive, so that the
    quotient is taken and the zero branch is not. *)
Theorem calculate_ips_guarded_division (request : IPSRequest.t) (db : DB)
    (results : list IPSRow.t) :
  schema_ok db ->
  ips_query_returns db (IPSRequest.nim request) (IPSRequest.semester request) results ->
  results <> [] ->
  exists data,
    calculate_ips request db results = Ok data /\
    (total_credits results = 0 ->
       IPSData.ips data = PyInt 0 /\
       float_div_int (total_weighted results) (total_credits results) =
         Raise (Exception ZeroDivisionError)) /\
    (Forall (fun row => 0 < IPSRow.sks row) results ->
       0 < total_credits results /\
       IPSData.ips data =
         PyFloat (round2 (total_weighted results / float_of_Z (total_credits results)))).
Proof.
  intros Hok Hp Hne. eexists. split; [apply calculate_ips_ok; assumption|].
  cbn [ips_payload IPSData.ips]. unfold guarded_ips. split.
  - intros ->. split; [reflexivity|apply float_div_int_zero].
  - intros Hpos. pose proof (total_credits_pos _ Hne Hpos) as H0.
    split; [exact H0|].
    destruct (Z.ltb_spec 0 (total_credits results)); [reflexivity|lia].
Qed.

Lemma calculate_ips_guarded_division_witness :
  schema_ok sample_db /\
  ips_query_returns sample_db "S1" 3 [IPSRow.mk 0 4%float "Seminar" (Some "A")] /\
  total_credits [IPSRow.mk 0 4%float "Seminar" (Some "A")] = 0 /\
  exists data,
    calculate_ips (IPSRequest.mk "S1" 3) sample_db
      [IPSRow.mk 0 4%float "Seminar" (Some "A")] = Ok data /\
    IPSData.ips data = PyInt 0.
Proof.
  assert (Hok : schema_ok sample_db)
    by (apply (bool_decide_unpack _); vm_compute; exact I).
  assert (Hp : ips_query_returns sample_db "S1" 3
                 [IPSRow.mk 0 4%float "Seminar" (Some "A")])
    by (vm_compute; reflexivity).
  split; [exact Hok|]. split; [exact Hp|]. split; [reflexivity|].
  destruct (calculate_ips_guarded_division (IPSRequest.mk "S1" 3) sample_db _ Hok Hp)
    as (data & Hdata & Hzero & _); [discriminate|].
  exists data. split; [exact Hdata|]. apply Hzero. reflexivity.
Defined.

(** ** IPS: missing student (C9) *)

Lemma first_mahasiswa_None (db : DB) (nim : string) :
  nim ∉ Mahasiswa.nim <$> mahasiswa db -> first_mahasiswa db nim = None.
Proof.
  intros Hnot. unfold first_mahasiswa.
  assert (filter (fun m => Mahasiswa.nim m = nim) (mahasiswa db) = []) as ->;
    [|reflexivity].
  apply elem_of_nil_inv. intros m [Hm Hin]%list_elem_of_filter.
  apply Hnot. apply list_elem_of_fmap. eauto.
Qed.

(** C9.  Under the schema and for a non-empty list of rows, whatever their
    order, if no [mahasiswa] row has the requested nim, [calculate_ips]
    still answers; the name is the literal "Unknown" and every other field
    is computed from the rows, in the order in which the store returned
    them, as for an existing student. *)
Theorem calculate_ips_unknown_student (request : IPSRequest.t) (db : DB)
    (results : list IPSRow.t) :
  schema_ok db ->
  ips_query_returns db (IPSRequest.nim request) (IPSRequest.semester request) results ->
  results <> [] ->
  IPSRequest.nim request ∉ (Mahasiswa.nim <$> mahasiswa db) ->
  calculate_ips request db results =
  Ok {| IPSData.nim := IPSRequest.nim request;
        IPSData.nama := "Unknown";
        IPSData.semester := IPSRequest.semester request;
        IPSData.ips := py_round2 (guarded_ips results);
        IPSData.total_sks := total_credits results;
        IPSData.total_bobot := round2 (total_weighted results);
        IPSData.details := detail_of <$> results |}.
Proof.
  intros Hok Hp Hne Hnot. rewrite calculate_ips_ok by assumption.
  unfold ips_payload, display_name. rewrite (first_mahasiswa_None _ _ Hnot).
  reflexivity.
Qed.

Lemma calculate_ips_unknown_student_witness :
  schema_ok sample_db /\
  ips_query_returns sample_db "S9" 1 [IPSRow.mk 3 3%float "Algoritma" (Some "B")] /\
  ("S9" ∉ Mahasiswa.nim <$> mahasiswa sample_db) /\
  calculate_ips (IPSRequest.mk "S9" 1) sample_db
    [IPSRow.mk 3 3%float "Algoritma" (Some "B")] =
  Ok {| IPSData.nim := "S9";
        IPSData.nama := "Unknown";
        IPSData.semester := 1;
        IPSData.ips := PyFloat 3%float;
        IPSData.total_sks := 3;
        IPSData.total_bobot := 9%float;
        IPSData.details :=
          [IPSDetail.mk "Algoritma" 3 (Some "B") 3%float 9%float] |}.
Proof.
  assert (Hok : schema_ok sample_db)
    by (apply (bool_decide_unpack _); vm_compute; exact I).
  assert (Hp : ips_query_returns sample_db "S9" 1
                 [IPSRow.mk 3 3%float "Algoritma" (Some "B")])
    by (vm_compute; reflexivity).
  assert (Hnot : "S9" ∉ Mahasiswa.nim <$> mahasiswa sample_db).
  { apply (bool_decide_unpack _). vm_compute. exact I. }
  split; [exact Hok|]. split; [exact Hp|]. split; [exact Hnot|].
  rewrite (calculate_ips_unknown_student (IPSRequest.mk "S9" 1) sample_db _ Hok Hp);
    [|discriminate|exact Hnot].
  vm_compute. reflexivity.
Defined.

(** ** Listing: order (C4) *)

#[global] Instance semester_le_refl : Reflexive semester_le.
Proof. intros [x|]; cbn; [lia|exact I]. Qed.

#[global] Instance semester_le_trans : Transitive semester_le.
Proof. intros [x|] [y|] [z|]; cbn; try tauto; lia. Qed.

#[global] Instance semester_le_total : Total semester_le.
Proof. intros [x|] [y|]; cbn; try tauto; lia. Qed.



Lemma order_by_Permutation {A} (key : A -> option Z * string) (rows : list A) :
  order_by key rows ≡ₚ rows.
Proof. apply merge_sort_Permutation. Qed.



(** The handler never fails in the model: it answers with the sorted,
    projected rows of the query. *)
Lemma get_krs_eq (nim : string) (semester : option Z) (db : DB) :
  get_krs nim semester db =
  Ok (krs_row <$> order_by krs_sort_key
        (if truthy semester
         then filter (fun r : KRS.t * Mahasiswa.t * MataKuliah.t =>
                        KRS.semester r.1.1 = semester) (krs_query db nim)
         else krs_query db nim)).
Proof. reflexivity. Qed.



Lemma elem_of_get_krs (nim : string) (semester : option Z) (db : DB) (d : KRSDetail.t) :
  (exists rows, get_krs nim semester db = Ok rows /\ d ∈ rows) <->
  exists k m mk,
    k ∈ krs db /\ m ∈ mahasiswa db /\ mk ∈ mata_kuliah db /\
    KRS.nim k = Mahasiswa.nim m /\ KRS.kode_mk k = MataKuliah.kode_mk mk /\
    KRS.nim k = nim /\
    (truthy semester = true -> KRS.semester k = semester) /\
    d = krs_row (k, m, mk).
Proof.
  rewrite get_krs_eq. split.
  - intros (rows & [= <-] & Hd).
    apply list_elem_of_fmap in Hd as ([[k m] mk] & -> & Hin).
    rewrite order_by_Permutation in Hin.
    assert (Hq : (k, m, mk) ∈ krs_query db nim /\
                 (truthy semester = true -> KRS.semester k = semester)).
    { destruct (truthy semester).
      - apply list_elem_of_filter in Hin as [Hsem Hin]. auto.
      - split; [exact Hin|discriminate]. }
    destruct Hq as [Hq Hsem]. unfold krs_query in Hq.
    apply list_elem_of_filter in Hq as [Hnim Hq].
    apply elem_of_join in Hq as (Hmk & Hq & Hc).
    apply elem_of_join in Hq as (Hm & Hk & Hs).
    exists k, m, mk. cbn in *. repeat split; assumption.
  - intros (k & m & mk & Hk & Hm & Hc & Hnm & Hkc & Hnim & Hsem & ->).
    eexists. split; [reflexivity|].
    apply list_elem_of_fmap. exists (k, m, mk). split; [reflexivity|].
    rewrite order_by_Permutation.
    assert (Hq : (k, m, mk) ∈ krs_query db nim).
    { unfold krs_query. apply list_elem_of_filter. split; [exact Hnim|].
      apply elem_of_join. split; [exact Hkc|]. split; [|exact Hc].
      apply elem_of_join. auto. }
    destruct (truthy semester); [|exact Hq].
    apply list_elem_of_filter. split; [|exact Hq]. apply Hsem. reflexivity.
Qed.




(** The listing of the sample student: term 0 first, then term 1 by code,
    term 2 by code, term 3. *)
Example get_krs_sample :
  exists rows,
    get_krs "S1" None sample_db = Ok rows /\
    (fun d => (KRSDetail.semester d, KRSDetail.kode_mk d, KRSDetail.id_krs d)) <$> rows =
      [(Some 0, "C2", 9); (Some 1, "C1", 1); (Some 1, "C2", 2); (Some 1, "C3", 3);
       (Some 2, "C3", 4); (Some 2, "C4", 5); (Some 2, "C5", 6); (Some 3, "C0", 7)].
Proof. eexists. split; [vm_compute; reflexivity|]. reflexivity. Qed.

(** ** Listing: the term filter (C5) *)

(** X4.  For a term other than 0 the filter is applied: the rows returned
    are the rows of the unfiltered listing that are in that term. *)
Lemma get_krs_nonzero_term (nim : string) (term : Z) (db : DB) (d : KRSDetail.t) :
  term <> 0 ->
  (exists rows, get_krs nim (Some term) db = Ok rows /\ d ∈ rows) <->
  (exists rows, get_krs nim None db = Ok rows /\ d ∈ rows) /\
  KRSDetail.semester d = Some term.
Proof.
  intros Hterm. rewrite !elem_of_get_krs.
  assert (Ht : truthy (Some term) = true).
  { cbn. destruct (Z.eqb_spec term 0); [contradiction|reflexivity]. }
  split.
  - intros (k & m & mk & Hk & Hm & Hc & Hnm & Hkc & Hnim & Hsem & ->).
    split; [|exact (Hsem Ht)].
    exists k, m, mk. repeat split; try assumption. discriminate.
  - intros [(k & m & mk & Hk & Hm & Hc & Hnm & Hkc & Hnim & _ & ->) Hsem].
    exists k, m, mk. repeat split; try assumption. intros _. exact Hsem.
Qed.

(** The IPS calculator takes the term 0 for a term like any other. *)
Example calculate_ips_term_zero :
  exists data,
    calculate_ips (IPSRequest.mk "S1" 0) sample_db (ips_query sample_db "S1" 0)
      = Ok data /\
    IPSDetail.mata_kuliah <$> IPSData.details data = ["Basis Data"].
Proof. eexists. split; [vm_compute; reflexivity|]. reflexivity. Qed.

(** C5 fails for the term 0.  The request [GET /api/acad/krs/S1?semester=0]
    on the sample data is answered with all eight enrollments of the
    student, seven of them in other terms: [if semester:] takes the
    supplied 0 for an absent argument. *)
Theorem get_krs_term_zero_unfiltered :
  exists rows,
    get_krs "S1" (Some 0) sample_db = Ok rows /\
    get_krs "S1" None sample_db = Ok rows /\
    KRSDetail.semester <$> rows =
      [Some 0; Some 1; Some 1; Some 1; Some 2; Some 2; Some 2; Some 3] /\
    filter (fun d => KRSDetail.semester d = Some 0) rows <> rows.
Proof.
  eexists. split; [vm_compute; reflexivity|]. split; [vm_compute; reflexivity|].
  split; [reflexivity|]. vm_compute. discriminate.
Qed.

(** ** Enrollments without a resolvable grade (C6) *)

Lemma ips_query_unresolved (db : DB) (e : KRS.t) (nim : string) (semester : Z) :
  (forall bn, bn ∈ bobot_nilai db -> KRS.nilai e <> Some (BobotNilai.nilai bn)) ->
  ips_query (with_krs db [e]) nim semester = [].
Proof.
  intros Hno. apply elem_of_nil_inv. intros row Hrow.
  apply elem_of_ips_query in Hrow as (k & mk & bn & Hk & _ & Hbn & _ & Hg & _).
  cbn in Hk, Hbn. apply list_elem_of_singleton in Hk as ->.
  exact (Hno bn Hbn Hg).
Qed.

Lemma ips_query_insert_unresolved (db : DB) (l1 l2 : list KRS.t) (e : KRS.t)
    (nim : string) (semester : Z) :
  krs db = l1 ++ l2 ->
  (forall bn, bn ∈ bobot_nilai db -> KRS.nilai e <> Some (BobotNilai.nilai bn)) ->
  ips_query (with_krs db (l1 ++ e :: l2)) nim semester = ips_query db nim semester.
Proof.
  intros Hkrs Hno. rewrite <- (with_krs_id db) at 2. rewrite Hkrs.
  change (e :: l2) with ([e] ++ l2). rewrite !ips_query_app.
  rewrite (ips_query_unresolved db e nim semester Hno). reflexivity.
Qed.

(** C6, as stated, fails in its second half: an enrollment without a
    grade whose student has no [mahasiswa] row is in the [krs] table, and
    the listing of its student is empty. *)
Lemma unresolved_grade_orphan_counterexample :
  KRS.nilai (KRS.mk 10 "S9" "C1" None (Some 1)) = None /\
  KRS.mk 10 "S9" "C1" None (Some 1)
    ∈ krs (with_krs sample_db (krs sample_db ++ [KRS.mk 10 "S9" "C1" None (Some 1)])) /\
  get_krs "S9" None
    (with_krs sample_db (krs sample_db ++ [KRS.mk 10 "S9" "C1" None (Some 1)]))
  = Ok [].
Proof.
  split; [reflexivity|]. split; [|vm_compute; reflexivity].
  cbn. do 9 apply list_elem_of_further. apply list_elem_of_here.
Qed.

(** C6, amended.  Let [e] be an enrollment whose grade is NULL or matches no
    [bobot_nilai] row, and let the [krs] table hold [e] anywhere among the
    other rows.  For every [calculate_ips] request the store can return
    the same lists of rows as without [e], and the request is answered
    exactly as without [e] (same ips, totals and details, and no error that
    was not there).  The listing of its student contains [e] exactly when
    the student row and the course row that [e] refers to exist. *)
Theorem unresolved_grade_enrollment (db : DB) (l1 l2 : list KRS.t) (e : KRS.t) :
  krs db = l1 ++ l2 ->
  (KRS.nilai e = None \/
   forall bn, bn ∈ bobot_nilai db -> KRS.nilai e <> Some (BobotNilai.nilai bn)) ->
  (forall request results,
     (ips_query_returns (with_krs db (l1 ++ e :: l2))
        (IPSRequest.nim request) (IPSRequest.semester request) results <->
      ips_query_returns db
        (IPSRequest.nim request) (IPSRequest.semester request) results) /\
     calculate_ips request (with_krs db (l1 ++ e :: l2)) results =
     calculate_ips request db results) /\
  ((exists rows d,
      get_krs (KRS.nim e) None (with_krs db (l1 ++ e :: l2)) = Ok rows /\
      d ∈ rows /\ enrollment_of d = e) <->
   KRS.nim e ∈ (Mahasiswa.nim <$> mahasiswa db) /\
   KRS.kode_mk e ∈ (MataKuliah.kode_mk <$> mata_kuliah db)).
Proof.
  intros Hkrs Hgrade.
  assert (Hno : forall bn, bn ∈ bobot_nilai db ->
                  KRS.nilai e <> Some (BobotNilai.nilai bn)).
  { destruct Hgrade as [Hnull|Hno]; [|exact Hno]. intros bn _. rewrite Hnull. discriminate. }
  split.
  - intros request results. split; [|reflexivity].
    unfold ips_query_returns.
    rewrite (ips_query_insert_unresolved db l1 l2 e _ _ Hkrs Hno). reflexivity.
  - split.
    + intros (rows & d & Hrows & Hd & He).
      destruct (proj1 (elem_of_get_krs (KRS.nim e) None
                         (with_krs db (l1 ++ e :: l2)) d))
        as (k & m & mk & _ & Hm & Hc & Hnm & Hkc & Hnim & _ & ->); [eauto|].
      cbn [with_krs mahasiswa mata_kuliah] in Hm, Hc. subst e. cbn. split.
      * rewrite Hnm. apply list_elem_of_fmap. eauto.
      * apply list_elem_of_fmap. eauto.
    + intros [Hm Hc].
      apply list_elem_of_fmap in Hm as (m & Hnim & Hm).
      apply list_elem_of_fmap in Hc as (mk & Hkode & Hc).
      destruct (proj2 (elem_of_get_krs (KRS.nim e) None
                         (with_krs db (l1 ++ e :: l2)) (krs_row (e, m, mk))))
        as (rows & Hrows & Hd).
      { exists e, m, mk. cbn [with_krs krs mahasiswa mata_kuliah].
        split; [apply elem_of_app; right; apply list_elem_of_here|].
        repeat split; try assumption. discriminate. }
      exists rows, (krs_row (e, m, mk)). split; [exact Hrows|]. split; [exact Hd|].
      unfold enrollment_of, krs_row. cbn. rewrite <- Hkode. destruct e; reflexivity.
Qed.

Lemma unresolved_grade_enrollment_witness :
  krs (with_krs sample_db
         [KRS.mk 1 "S1" "C1" (Some "A") (Some 1); KRS.mk 2 "S1" "C2" (Some "B") (Some 1)])
    = [KRS.mk 1 "S1" "C1" (Some "A") (Some 1)] ++ [KRS.mk 2 "S1" "C2" (Some "B") (Some 1)] /\
  KRS.nilai (KRS.mk 3 "S1" "C3" None (Some 1)) = None /\
  (forall results,
     calculate_ips (IPSRequest.mk "S1" 1)
       (with_krs sample_db
          [KRS.mk 1 "S1" "C1" (Some "A") (Some 1); KRS.mk 3 "S1" "C3" None (Some 1);
           KRS.mk 2 "S1" "C2" (Some "B") (Some 1)]) results =
     calculate_ips (IPSRequest.mk "S1" 1)
       (with_krs sample_db
          [KRS.mk 1 "S1" "C1" (Some "A") (Some 1); KRS.mk 2 "S1" "C2" (Some "B") (Some 1)])
       results) /\
  exists rows d,
    get_krs "S1" None
      (with_krs sample_db
         [KRS.mk 1 "S1" "C1" (Some "A") (Some 1); KRS.mk 3 "S1" "C3" None (Some 1);
          KRS.mk 2 "S1" "C2" (Some "B") (Some 1)]) = Ok rows /\
    d ∈ rows /\ enrollment_of d = KRS.mk 3 "S1" "C3" None (Some 1).
Proof.
  destruct (unresolved_grade_enrollment
              (with_krs sample_db
                 [KRS.mk 1 "S1" "C1" (Some "A") (Some 1);
                  KRS.mk 2 "S1" "C2" (Some "B") (Some 1)])
              [KRS.mk 1 "S1" "C1" (Some "A") (Some 1)]
              [KRS.mk 2 "S1" "C2" (Some "B") (Some 1)]
              (KRS.mk 3 "S1" "C3" None (Some 1)))
    as [Hips Hlist].
  - reflexivity.
  - left. reflexivity.
  - split; [reflexivity|]. split; [reflexivity|].
    split; [intros results; apply (Hips (IPSRequest.mk "S1" 1) results)|].
    apply Hlist. split; apply (bool_decide_unpack _); vm_compute; exact I.
Defined.

(** ** Creating a student whose id exists (C7) *)

(** C7.  In a database whose rows satisfy their column types, when a
    [mahasiswa] row with the submitted nim exists, [create_mahasiswa]
    answers with an HTTP error and the database after the call is the
    database before it: the existing row is not overwritten and no second
    row with that nim is added. *)
Theorem create_mahasiswa_duplicate (mhs : MahasiswaSchema.t) (db : DB) :
  columns_ok db ->
  MahasiswaSchema.nim mhs ∈ (Mahasiswa.nim <$> mahasiswa db) ->
  exists d, create_mahasiswa mhs db = (Http 500 d, db).
Proof.
  intros (Hcols & _) Hin.
  destruct (create_mahasiswa mhs db) as [r db'] eqn:Hc.
  destruct (create_mahasiswa_cases _ _ _ _ Hc)
    as [[[d ->] ->]|(stored & Hst & Hnew & _)]; [eauto|].
  exfalso. apply list_elem_of_fmap in Hin as (y & Hnim & Hy).
  rewrite Forall_forall in Hcols. destruct (Hcols y Hy) as ([Hlen _] & _).
  apply store_mahasiswa_Return in Hst as (Hst & _). cbn in Hst.
  rewrite Hnim, (store_varchar_fits _ _ Hlen) in Hst. injection Hst as Hst.
  apply Hnew. rewrite <- Hst. apply list_elem_of_fmap. eauto.
Qed.

Lemma create_mahasiswa_duplicate_witness :
  columns_ok sample_db /\
  ("S1" ∈ Mahasiswa.nim <$> mahasiswa sample_db) /\
  exists d,
    create_mahasiswa (MahasiswaSchema.mk "S1" "Budi Lain" "Sipil" 2024) sample_db
    = (Http 500 d, sample_db).
Proof.
  assert (Hcols : columns_ok sample_db)
    by (apply (bool_decide_unpack _); vm_compute; exact I).
  assert (Hin : "S1" ∈ Mahasiswa.nim <$> mahasiswa sample_db)
    by (apply (bool_decide_unpack _); vm_compute; exact I).
  split; [exact Hcols|]. split; [exact Hin|].
  exact (create_mahasiswa_duplicate
           (MahasiswaSchema.mk "S1" "Budi Lain" "Sipil" 2024) sample_db Hcols Hin).
Defined.

(** Whatever is submitted, the primary key stays unique. *)
Lemma create_mahasiswa_keeps_key (mhs : MahasiswaSchema.t) (db db' : DB)
    (r : response (created Mahasiswa.t)) :
  NoDup (Mahasiswa.nim <$> mahasiswa db) ->
  create_mahasiswa mhs db = (r, db') ->
  NoDup (Mahasiswa.nim <$> mahasiswa db').
Proof.
  intros Hnd Hc.
  destruct (create_mahasiswa_cases _ _ _ _ Hc)
    as [[_ ->]|(stored & _ & Hnew & -> & _)]; [exact Hnd|].
  cbn [with_mahasiswa mahasiswa]. apply NoDup_snoc_fmap; assumption.
Qed.

(** A new nim that fits its columns is inserted, after the existing rows. *)
Example create_mahasiswa_new :
  exists data db',
    create_mahasiswa (MahasiswaSchema.mk "S2" "Sari" "Sipil" 2024) sample_db
    = (Ok data, db') /\
    Mahasiswa.nim <$> mahasiswa db' = ["S1"; "S2"].
Proof. eexists _, _. split; [vm_compute; reflexivity|]. reflexivity. Qed.

(** How the store treats what does not fit.  A nim of eleven characters is
    refused; one of ten characters and a blank is stored without the blank,
    and the answer is an error although the row is there; a nim of ten
    characters is stored however many bytes it has; a text with a NUL is
    refused by the driver. *)
Example create_mahasiswa_column_casts :
  create_mahasiswa (MahasiswaSchema.mk "12345678901" "Sari" "Sipil" 2024) sample_db
    = (Http 500 (StrOf DataError), sample_db) /\
  create_mahasiswa (MahasiswaSchema.mk "1234567890 " "Sari" "Sipil" 2024) sample_db
    = (Http 500 (StrOf InvalidRequestError),
       with_mahasiswa sample_db
         (mahasiswa sample_db
          ++ [Mahasiswa.mk "1234567890" "Sari" (Some "Sipil") (Some 2024)])) /\
  (String.length "ééééé67890" = 15%nat /\
   exists c db',
     create_mahasiswa (MahasiswaSchema.mk "ééééé67890" "Sari" "Sipil" 2024) sample_db
     = (Ok c, db')) /\
  create_mahasiswa (MahasiswaSchema.mk (String Ascii.zero "S2") "Sari" "Sipil" 2024)
    sample_db
    = (Http 500 (StrOf ValueError), sample_db) /\
  create_mahasiswa (MahasiswaSchema.mk "S2" "Sari" "Sipil" (2 ^ 31)) sample_db
    = (Http 500 (StrOf DataError), sample_db).
Proof.
  split; [vm_compute; reflexivity|]. split; [vm_compute; reflexivity|].
  split; [split; [reflexivity|eexists _, _; vm_compute; reflexivity]|].
  split; vm_compute; reflexivity.
Qed.

(** ** The grade of a new enrollment (C10) *)

Lemma create_krs_grade (nextval : DB -> Z) (krs0 : KRSSchema.t) (db db' : DB)
    (r : response (created KRS.t)) (k : KRS.t) :
  create_krs nextval krs0 db = (r, db') ->
  k ∈ krs db' -> k ∈ krs db \/ is_Some (KRS.nilai k).
Proof.
  intros Hc Hk.
  destruct (create_krs_cases _ _ _ _ _ Hc)
    as [[_ ->]|(stored & Hst & _ & -> & _)]; [auto|].
  cbn [with_krs krs] in Hk. apply elem_of_app in Hk as [Hk|Hk]; [auto|].
  apply list_elem_of_singleton in Hk as ->. right.
  apply (store_krs_grade _ _ Hst). cbn. eauto.
Qed.

(** C10.  [nilai] is a required string of the body of a [create_krs]
    request: a body in which it is absent, null or not a string is answered
    with 422 by validation and the database is left as it was; and every
    [krs] row that a request adds has a grade that is not NULL. *)
Theorem post_krs_requires_grade (nextval : DB -> Z)
    (validate_int : option json -> option Z) (body : gmap string json) (db : DB) :
  ((forall s, body !! "nilai" <> Some (JStr s)) ->
   exists loc,
     post_krs nextval validate_int body db = (Http 422 (Invalid loc), db) /\
     "nilai" ∈ loc) /\
  (forall r db' k,
     post_krs nextval validate_int body db = (r, db') ->
     k ∈ krs db' -> k ∈ krs db \/ exists g, KRS.nilai k = Some g).
Proof.
  split.
  - intros Hnot. unfold post_krs, KRSSchema_validate.
    assert (validate_str (body !! "nilai") = None) as ->.
    { destruct (body !! "nilai") as [[]|]; try reflexivity.
      exfalso. eapply Hnot. reflexivity. }
    destruct (validate_str (body !! "nim")), (validate_str (body !! "kode_mk"));
      (eexists; split; [reflexivity|]); cbn;
      repeat (apply list_elem_of_here || apply list_elem_of_further).
  - intros r db' k Hpost Hk. unfold post_krs in Hpost.
    destruct (KRSSchema_validate validate_int body) as [loc|krs0].
    + injection Hpost as <- <-. left. exact Hk.
    + destruct (create_krs_grade nextval krs0 db db' r k Hpost Hk) as [Hold|[g Hg]];
        [left|right]; eauto.
Qed.

Lemma post_krs_requires_grade_witness :
  (forall s,
     ({[ "nim" := JStr "S1"; "kode_mk" := JStr "C1"; "nilai" := JNull;
         "semester" := JInt 1 ]} : gmap string json) !! "nilai" <> Some (JStr s)) /\
  exists loc,
    post_krs (fun db => 1 + Z.of_nat (length (krs db)))
      (fun v => match v with Some (JInt z) => Some z | _ => None end)
      {[ "nim" := JStr "S1"; "kode_mk" := JStr "C1"; "nilai" := JNull;
         "semester" := JInt 1 ]} sample_db
    = (Http 422 (Invalid loc), sample_db) /\
    "nilai" ∈ loc.
Proof.
  assert (Hnot : forall s,
     ({[ "nim" := JStr "S1"; "kode_mk" := JStr "C1"; "nilai" := JNull;
         "semester" := JInt 1 ]} : gmap string json) !! "nilai" <> Some (JStr s)).
  { intros s. vm_compute. discriminate. }
  split; [exact Hnot|].
  exact (proj1 (post_krs_requires_grade
                  (fun db => 1 + Z.of_nat (length (krs db)))
                  (fun v => match v with Some (JInt z) => Some z | _ => None end)
                  _ sample_db) Hnot).
Defined.

(** A complete body with a known grade is inserted with that grade. *)
Example post_krs_with_grade :
  exists data db',
    post_krs (fun db => 1 + Z.of_nat (length (krs db)))
      (fun v => match v with Some (JInt z) => Some z | _ => None end)
      {[ "nim" := JStr "S1"; "kode_mk" := JStr "C4"; "nilai" := JStr "B";
         "semester" := JInt 3 ]} sample_db
    = (Ok data, db') /\
    last (krs db') = Some (KRS.mk 10 "S1" "C4" (Some "B") (Some 3)).
Proof. eexists _, _. split; [vm_compute; reflexivity|]. reflexivity. Qed.

(** * Further properties *)

(** ** Listing: which rows are shown *)

(** X1.  Every row of a listing shows an enrollment of the requested
    student that is in the [krs] table, with the name of a [mahasiswa] row
    of that nim and the name and credit units of a [mata_kuliah] row of its
    course code: nothing is listed for another student, and nothing is
    made up. *)
Theorem get_krs_rows_of_student (nim : string) (semester : option Z) (db : DB)
    (rows : list KRSDetail.t) (d : KRSDetail.t) :
  get_krs nim semester db = Ok rows ->
  d ∈ rows ->
  KRSDetail.nim d = nim /\
  enrollment_of d ∈ krs db /\
  (exists m, m ∈ mahasiswa db /\ Mahasiswa.nim m = nim /\
             KRSDetail.nama_mahasiswa d = Mahasiswa.nama m) /\
  (exists mk, mk ∈ mata_kuliah db /\
              MataKuliah.kode_mk mk = KRSDetail.kode_mk d /\
              KRSDetail.nama_mk d = MataKuliah.nama_mk mk /\
              KRSDetail.sks d = MataKuliah.sks mk).
Proof.
  intros Hget Hd.
  destruct (proj1 (elem_of_get_krs nim semester db d))
    as (k & m & mk & Hk & Hm & Hmk & Hnm & Hkc & Hnim & _ & ->); [eauto|].
  cbn. split; [exact Hnim|]. split.
  - unfold enrollment_of. cbn. rewrite <- Hkc. destruct k; exact Hk.
  - split; [exists m|exists mk]; repeat split; congruence.
Qed.

Lemma get_krs_rows_of_student_witness :
  exists rows d,
    get_krs "S1" (Some 2) sample_db = Ok rows /\ d ∈ rows /\
    KRSDetail.nim d = "S1" /\ enrollment_of d ∈ krs sample_db.
Proof.
  assert (Hget : exists rows d, get_krs "S1" (Some 2) sample_db = Ok rows /\ d ∈ rows).
  { eexists _, _. split; [vm_compute; reflexivity|]. apply list_elem_of_here. }
  destruct Hget as (rows & d & Hget & Hd). exists rows, d.
  destruct (get_krs_rows_of_student "S1" (Some 2) sample_db rows d Hget Hd)
    as (Hnim & Hin & _).
  auto.
Defined.





Lemma get_krs_nonzero_term_witness :
  2 <> 0 /\
  ((exists rows, get_krs "S1" (Some 2) sample_db = Ok rows /\
                 krs_row (KRS.mk 4 "S1" "C3" (Some "A") (Some 2),
                          Mahasiswa.mk "S1" "Budi" (Some "Informatika") (Some 2023),
                          MataKuliah.mk "C3" "Etika Profesi" 1) ∈ rows) <->
   (exists rows, get_krs "S1" None sample_db = Ok rows /\
                 krs_row (KRS.mk 4 "S1" "C3" (Some "A") (Some 2),
                          Mahasiswa.mk "S1" "Budi" (Some "Informatika") (Some 2023),
                          MataKuliah.mk "C3" "Etika Profesi" 1) ∈ rows) /\
   Some 2 = Some 2).
Proof.
  split; [discriminate|].
  exact (get_krs_nonzero_term "S1" 2 sample_db _ ltac:(discriminate)).
Defined.

(** ** IPS: the payload and the status *)

Lemma int_to_float_Some (z : Z) (y : float) :
  int_to_float z = Some y -> y = float_of_Z z.
Proof. unfold int_to_float. destruct (_ <? _); congruence. Qed.

Lemma ips_loop_inv (rows : list IPSRow.t) (acc acc' : accum) :
  ips_loop rows acc = Return acc' ->
  acc' = {| total_bobot := fold_left PrimFloat.add (weighted <$> rows) (total_bobot acc);
            total_sks := total_sks acc + total_credits rows;
            details := details acc ++ (detail_of <$> rows) |}.
Proof.
  revert acc. induction rows as [|row rows IH]; intros acc Hloop.
  - cbn in Hloop. injection Hloop as <-. cbn.
    rewrite Z.add_0_r, app_nil_r. destruct acc; reflexivity.
  - cbn [ips_loop] in Hloop. unfold float_mul_int in Hloop.
    destruct (int_to_float (IPSRow.sks row)) as [y|] eqn:Hy; [|discriminate].
    apply int_to_float_Some in Hy as ->. cbn [bind] in Hloop.
    rewrite (IH _ Hloop). cbn [total_bobot total_sks details].
    rewrite !fmap_cons. cbn [fold_left]. rewrite <- app_assoc.
    unfold total_credits. rewrite fmap_cons. cbn [foldr].
    rewrite Z.add_assoc. reflexivity.
Qed.

(** A payload, when there is one, is the payload of the rows that the
    store returned, and there are such rows. *)
Lemma calculate_ips_inv (request : IPSRequest.t) (db : DB)
    (results : list IPSRow.t) (data : IPSData.t) :
  calculate_ips request db results = Ok data ->
  results <> [] /\ data = ips_payload request db results.
Proof.
  unfold calculate_ips, calculate_ips_body.
  destruct results as [|row rows]; [discriminate|].
  destruct (ips_loop (row :: rows) accum0) as [acc|r] eqn:Hloop;
    [|destruct r; discriminate].
  apply ips_loop_inv in Hloop. subst acc.
  cbn [bind accum0 total_bobot total_sks details]. rewrite Z.add_0_l, app_nil_l.
  unfold ips_payload, guarded_ips, total_weighted, float_sum, display_name.
  destruct (0 <? total_credits (row :: rows)).
  - unfold float_div_int.
    destruct (int_to_float (total_credits (row :: rows))) as [y|] eqn:Hy;
      [|discriminate].
    apply int_to_float_Some in Hy as ->.
    destruct (total_credits (row :: rows) =? 0); [discriminate|].
    cbn. intros [= <-]. split; [discriminate|reflexivity].
  - cbn. intros [= <-]. split; [discriminate|reflexivity].
Qed.

(** X5.  A payload of [calculate_ips] echoes the requested nim and term,
    has at least one detail row, reports as [total_sks] the sum of the
    credit units of its detail rows, shows on every detail row the rounding
    of that row's own weight times credit units, and carries the int 0 as
    [ips] whenever the credit total is not positive; this for every list of
    rows that the handler is given. *)
Theorem calculate_ips_payload_consistent (request : IPSRequest.t) (db : DB)
    (results : list IPSRow.t) (data : IPSData.t) :
  calculate_ips request db results = Ok data ->
  IPSData.nim data = IPSRequest.nim request /\
  IPSData.semester data = IPSRequest.semester request /\
  IPSData.details data <> [] /\
  IPSData.total_sks data = foldr Z.add 0 (IPSDetail.sks <$> IPSData.details data) /\
  Forall (fun d => IPSDetail.bobot_x_sks d =
                     round2 (IPSDetail.bobot d * float_of_Z (IPSDetail.sks d)))
    (IPSData.details data) /\
  (IPSData.total_sks data <= 0 -> IPSData.ips data = PyInt 0).
Proof.
  intros Hdata. apply calculate_ips_inv in Hdata as [Hne ->]. cbn.
  split; [reflexivity|]. split; [reflexivity|]. split.
  { destruct results; [congruence|discriminate]. }
  split.
  { unfold total_credits. rewrite <- list_fmap_compose. reflexivity. }
  split.
  { apply Forall_fmap, Forall_forall. intros row _. reflexivity. }
  intros Hle. unfold guarded_ips.
  destruct (Z.ltb_spec 0 (total_credits results)); [lia|reflexivity].
Qed.

Lemma calculate_ips_payload_consistent_witness :
  exists data,
    calculate_ips (IPSRequest.mk "S1" 2) sample_db sample_rows_swapped = Ok data /\
    IPSData.nim data = "S1" /\ IPSData.semester data = 2 /\
    IPSData.total_sks data = foldr Z.add 0 (IPSDetail.sks <$> IPSData.details data).
Proof.
  assert (Hd : exists data,
            calculate_ips (IPSRequest.mk "S1" 2) sample_db sample_rows_swapped = Ok data)
    by (eexists; vm_compute; reflexivity).
  destruct Hd as [data Hd]. exists data.
  destruct (calculate_ips_payload_consistent _ _ _ _ Hd) as (Hn & Hs & _ & Ht & _).
  auto.
Defined.

(** X6.  With unique primary keys, credit units and ids in range and intact
    foreign keys, and whatever the order in which the store returns the
    rows, [calculate_ips] answers 404 exactly when the student has no graded
    enrollment in the term; with a graded enrollment the handler returns a
    payload; and a payload has one detail row for each graded enrollment of
    the student in the term (in the order returned, so in some order). *)
Theorem calculate_ips_status (request : IPSRequest.t) (db : DB)
    (results : list IPSRow.t) :
  schema_ok db -> fk_ok db ->
  ips_query_returns db (IPSRequest.nim request) (IPSRequest.semester request) results ->
  (calculate_ips request db results =
     Http 404 (Msg "No KRS data found for this semester") <->
   filter (graded (IPSRequest.nim request) (IPSRequest.semester request)) (krs db) = []) /\
  (filter (graded (IPSRequest.nim request) (IPSRequest.semester request)) (krs db) <> [] ->
   exists data, calculate_ips request db results = Ok data) /\
  (forall data,
     calculate_ips request db results = Ok data ->
     IPSDetail.nilai <$> IPSData.details data ≡ₚ
     KRS.nilai <$> filter (graded (IPSRequest.nim request) (IPSRequest.semester request))
                     (krs db)).
Proof.
  intros Hok Hfk Hp.
  pose proof (ips_query_enrollments db (IPSRequest.nim request)
                (IPSRequest.semester request) Hok Hfk) as Henr.
  assert (Hperm : IPSRow.nilai <$> results ≡ₚ
            KRS.nilai <$> filter (graded (IPSRequest.nim request)
                                    (IPSRequest.semester request)) (krs db)).
  { rewrite <- Henr. apply fmap_Permutation, Hp. }
  destruct results as [|row rows].
  - apply Permutation_nil_l in Hperm. symmetry in Hperm.
    apply fmap_nil_inv in Hperm.
    rewrite Hperm. split; [split; reflexivity|]. split; [congruence|discriminate].
  - assert (Hne : row :: rows <> []) by discriminate.
    rewrite (calculate_ips_ok request db _ Hok Hp Hne).
    split; [|split].
    + split; [discriminate|]. intros Hnil. rewrite Hnil in Hperm.
      apply Permutation_nil_r in Hperm. discriminate.
    + intros _. eauto.
    + intros data [= <-]. cbn [ips_payload IPSData.details].
      rewrite <- Hperm, <- list_fmap_compose. reflexivity.
Qed.

Lemma calculate_ips_status_witness :
  schema_ok sample_db_fk /\ fk_ok sample_db_fk /\
  ips_query_returns sample_db_fk "S1" 4 [] /\
  ips_query_returns sample_db_fk "S1" 2 sample_rows_swapped /\
  calculate_ips (IPSRequest.mk "S1" 4) sample_db_fk [] =
    Http 404 (Msg "No KRS data found for this semester") /\
  exists data,
    calculate_ips (IPSRequest.mk "S1" 2) sample_db_fk sample_rows_swapped = Ok data /\
    IPSDetail.nilai <$> IPSData.details data ≡ₚ [Some "A"; Some "A-"; Some "C-"].
Proof.
  assert (Hok : schema_ok sample_db_fk)
    by (apply (bool_decide_unpack _); vm_compute; exact I).
  assert (Hfk : fk_ok sample_db_fk)
    by (apply (bool_decide_unpack _); vm_compute; exact I).
  assert (Hp4 : ips_query_returns sample_db_fk "S1" 4 []) by (vm_compute; reflexivity).
  assert (Hp2 : ips_query_returns sample_db_fk "S1" 2 sample_rows_swapped)
    by (vm_compute; apply perm_skip, perm_swap).
  split; [exact Hok|]. split; [exact Hfk|]. split; [exact Hp4|]. split; [exact Hp2|].
  split.
  - apply (calculate_ips_status (IPSRequest.mk "S1" 4) sample_db_fk [] Hok Hfk Hp4).
    vm_compute. reflexivity.
  - destruct (calculate_ips_status (IPSRequest.mk "S1" 2) sample_db_fk _ Hok Hfk Hp2)
      as (_ & Hsome & Hdet).
    destruct Hsome as [data Hd]; [vm_compute; discriminate|].
    exists data. split; [exact Hd|].
    rewrite (Hdet data Hd). vm_compute. reflexivity.
Defined.

(** ** Students and courses: lookups and listings *)

Lemma NoDup_fmap_inj_on {A K} (f : A -> K) (l : list A) (x y : A) :
  NoDup (f <$> l) -> x ∈ l -> y ∈ l -> f x = f y -> x = y.
Proof.
  induction l as [|a l IH]; intros Hnd Hx Hy Hf; [inversion Hx|].
  rewrite fmap_cons in Hnd. apply NoDup_cons in Hnd as [Ha Hnd].
  apply elem_of_cons in Hx as [->|Hx], Hy as [->|Hy].
  - reflexivity.
  - exfalso. apply Ha. rewrite Hf. apply list_elem_of_fmap. eauto.
  - exfalso. apply Ha. rewrite <- Hf. apply list_elem_of_fmap. eauto.
  - apply IH; assumption.
Qed.

Section order_by_code.
Context {A : Type} (key : A -> string).

Lemma order_by_code_Permutation (rows : list A) : order_by_code key rows ≡ₚ rows.
Proof. apply merge_sort_Permutation. Qed.

Lemma order_by_code_sorted (rows : list A) :
  StronglySorted (fun r1 r2 => String.le (key r1) (key r2)) (order_by_code key rows).
Proof.
  apply StronglySorted_merge_sort.
  - intros r1 r2 r3. apply (@transitivity _ String.le _).
  - intros r1 r2. apply (total String.le).
Qed.

(** With unique keys the sorted list does not depend on the order of the
    table. *)
Lemma order_by_code_unique (rows rows' : list A) :
  NoDup (key <$> rows) -> rows' ≡ₚ rows ->
  order_by_code key rows' = order_by_code key rows.
Proof.
  intros Hnd Hp.
  apply (StronglySorted_unique_strong (fun r1 r2 => String.le (key r1) (key r2))).
  - intros x1 x2 H1 H2 H12 H21.
    rewrite order_by_code_Permutation, Hp in H1.
    rewrite order_by_code_Permutation in H2.
    apply (NoDup_fmap_inj_on key rows); [assumption..|].
    apply (anti_symm String.le); assumption.
  - apply order_by_code_sorted.
  - apply order_by_code_sorted.
  - rewrite !order_by_code_Permutation. exact Hp.
Qed.
End order_by_code.

(** X7.  [get_all_mahasiswa] answers with every student row once, in
    ascending order of nim; as nims are unique, the answer is the same
    whatever the order in which the rows were inserted. *)
Theorem get_all_mahasiswa_sorted (db : DB) (l : list Mahasiswa.t) :
  NoDup (Mahasiswa.nim <$> mahasiswa db) ->
  l ≡ₚ mahasiswa db ->
  exists rows,
    get_all_mahasiswa db = Ok rows /\
    get_all_mahasiswa (with_mahasiswa db l) = Ok rows /\
    rows ≡ₚ mahasiswa db /\
    StronglySorted (fun m1 m2 => String.le (Mahasiswa.nim m1) (Mahasiswa.nim m2)) rows.
Proof.
  intros Hnd Hp. exists (order_by_code Mahasiswa.nim (mahasiswa db)).
  split; [reflexivity|]. split.
  - unfold get_all_mahasiswa. cbn [with_mahasiswa mahasiswa catch_all].
    rewrite (order_by_code_unique Mahasiswa.nim _ l Hnd Hp). reflexivity.
  - split; [apply order_by_code_Permutation|apply order_by_code_sorted].
Qed.

(** X8.  [get_all_matakuliah] answers with every course row once, in
    ascending order of course code; as codes are unique, the answer is the
    same whatever the order in which the rows were inserted. *)
Theorem get_all_matakuliah_sorted (db : DB) (l : list MataKuliah.t) :
  NoDup (MataKuliah.kode_mk <$> mata_kuliah db) ->
  l ≡ₚ mata_kuliah db ->
  exists rows,
    get_all_matakuliah db = Ok rows /\
    get_all_matakuliah (with_mata_kuliah db l) = Ok rows /\
    rows ≡ₚ mata_kuliah db /\
    StronglySorted
      (fun c1 c2 => String.le (MataKuliah.kode_mk c1) (MataKuliah.kode_mk c2)) rows.
Proof.
  intros Hnd Hp. exists (order_by_code MataKuliah.kode_mk (mata_kuliah db)).
  split; [reflexivity|]. split.
  - unfold get_all_matakuliah. cbn [with_mata_kuliah mata_kuliah catch_all].
    rewrite (order_by_code_unique MataKuliah.kode_mk _ l Hnd Hp). reflexivity.
  - split; [apply order_by_code_Permutation|apply order_by_code_sorted].
Qed.

Lemma get_all_matakuliah_sorted_witness :
  NoDup (MataKuliah.kode_mk <$> mata_kuliah sample_db) /\
  exists rows,
    get_all_matakuliah sample_db = Ok rows /\
    get_all_matakuliah (with_mata_kuliah sample_db (reverse (mata_kuliah sample_db)))
      = Ok rows /\
    MataKuliah.kode_mk <$> rows = ["C0"; "C1"; "C2"; "C3"; "C4"; "C5"].
Proof.
  assert (Hnd : NoDup (MataKuliah.kode_mk <$> mata_kuliah sample_db))
    by (apply (bool_decide_unpack _); vm_compute; exact I).
  split; [exact Hnd|].
  destruct (get_all_matakuliah_sorted sample_db (reverse (mata_kuliah sample_db)) Hnd)
    as (rows & H1 & H2 & _); [apply reverse_Permutation|].
  exists rows. split; [exact H1|]. split; [exact H2|].
  vm_compute in H1. injection H1 as <-. reflexivity.
Defined.

Lemma get_all_mahasiswa_sorted_witness :
  NoDup (Mahasiswa.nim <$> [Mahasiswa.mk "S2" "Sari" None None;
                            Mahasiswa.mk "S1" "Budi" (Some "Informatika") (Some 2023)]) /\
  exists rows,
    get_all_mahasiswa
      (with_mahasiswa sample_db
         [Mahasiswa.mk "S2" "Sari" None None;
          Mahasiswa.mk "S1" "Budi" (Some "Informatika") (Some 2023)]) = Ok rows /\
    get_all_mahasiswa
      (with_mahasiswa sample_db
         [Mahasiswa.mk "S1" "Budi" (Some "Informatika") (Some 2023);
          Mahasiswa.mk "S2" "Sari" None None]) = Ok rows /\
    Mahasiswa.nim <$> rows = ["S1"; "S2"].
Proof.
  assert (Hnd : NoDup (Mahasiswa.nim <$>
                         [Mahasiswa.mk "S2" "Sari" None None;
                          Mahasiswa.mk "S1" "Budi" (Some "Informatika") (Some 2023)]))
    by (apply (bool_decide_unpack _); vm_compute; exact I).
  split; [exact Hnd|].
  destruct (get_all_mahasiswa_sorted
              (with_mahasiswa sample_db
                 [Mahasiswa.mk "S2" "Sari" None None;
                  Mahasiswa.mk "S1" "Budi" (Some "Informatika") (Some 2023)])
              [Mahasiswa.mk "S1" "Budi" (Some "Informatika") (Some 2023);
               Mahasiswa.mk "S2" "Sari" None None] Hnd)
    as (rows & H1 & H2 & _); [apply perm_swap|].
  exists rows. split; [exact H1|]. split; [exact H2|].
  vm_compute in H1. injection H1 as <-. reflexivity.
Defined.


(** X10.  With unique nims, [get_mahasiswa] answers with a row exactly when
    that row is in the table under the requested nim. *)
Theorem get_mahasiswa_found_iff (nim : string) (db : DB) (m : Mahasiswa.t) :
  NoDup (Mahasiswa.nim <$> mahasiswa db) ->
  get_mahasiswa nim db = Ok m <-> m ∈ mahasiswa db /\ Mahasiswa.nim m = nim.
Proof.
  intros Hnd. unfold get_mahasiswa, first_mahasiswa.
  destruct (filter (fun m' => Mahasiswa.nim m' = nim) (mahasiswa db))
    as [|m' t] eqn:Hf; cbn.
  - split; [discriminate|]. intros [Hm Hn].
    assert (Hin : m ∈ filter (fun m' => Mahasiswa.nim m' = nim) (mahasiswa db))
      by (apply list_elem_of_filter; auto).
    rewrite Hf in Hin. inversion Hin.
  - assert (Hm' : m' ∈ filter (fun m' => Mahasiswa.nim m' = nim) (mahasiswa db))
      by (rewrite Hf; apply list_elem_of_here).
    apply list_elem_of_filter in Hm' as [Hn' Hm'].
    split.
    + intros [= <-]. auto.
    + intros [Hm Hn]. f_equal.
      apply (NoDup_fmap_inj_on Mahasiswa.nim (mahasiswa db)); [assumption..|congruence].
Qed.

Lemma get_mahasiswa_found_iff_witness :
  NoDup (Mahasiswa.nim <$> mahasiswa sample_db) /\
  get_mahasiswa "S1" sample_db
    = Ok (Mahasiswa.mk "S1" "Budi" (Some "Informatika") (Some 2023)).
Proof.
  assert (Hnd : NoDup (Mahasiswa.nim <$> mahasiswa sample_db))
    by (apply (bool_decide_unpack _); vm_compute; exact I).
  split; [exact Hnd|].
  apply (get_mahasiswa_found_iff "S1" sample_db _ Hnd).
  split; [apply list_elem_of_here|reflexivity].
Defined.

(** ** Inserts: keys that exist, references that do not *)

(** X11.  In a database whose rows satisfy their column types, when a
    [mata_kuliah] row with the submitted code exists, [create_matakuliah]
    answers with an HTTP error and leaves the database as it was. *)
Theorem create_matakuliah_duplicate (mk : MataKuliahSchema.t) (db : DB) :
  columns_ok db ->
  MataKuliahSchema.kode_mk mk ∈ (MataKuliah.kode_mk <$> mata_kuliah db) ->
  exists d, create_matakuliah mk db = (Http 500 d, db).
Proof.
  intros (_ & Hcols & _) Hin.
  destruct (create_matakuliah mk db) as [r db'] eqn:Hc.
  destruct (create_matakuliah_cases _ _ _ _ Hc)
    as [[[d ->] ->]|(stored & Hst & Hnew & _)]; [eauto|].
  exfalso. apply list_elem_of_fmap in Hin as (y & Hkode & Hy).
  rewrite Forall_forall in Hcols. destruct (Hcols y Hy) as ([Hlen _] & _).
  apply store_mata_kuliah_Return in Hst as (Hst & _). cbn in Hst.
  rewrite Hkode, (store_varchar_fits _ _ Hlen) in Hst. injection Hst as Hst.
  apply Hnew. rewrite <- Hst. apply list_elem_of_fmap. eauto.
Qed.

Lemma create_matakuliah_duplicate_witness :
  columns_ok sample_db /\
  ("C1" ∈ MataKuliah.kode_mk <$> mata_kuliah sample_db) /\
  exists d,
    create_matakuliah (MataKuliahSchema.mk "C1" "Aljabar" 4) sample_db
    = (Http 500 d, sample_db).
Proof.
  assert (Hcols : columns_ok sample_db)
    by (apply (bool_decide_unpack _); vm_compute; exact I).
  assert (Hin : "C1" ∈ MataKuliah.kode_mk <$> mata_kuliah sample_db)
    by (apply (bool_decide_unpack _); vm_compute; exact I).
  split; [exact Hcols|]. split; [exact Hin|].
  exact (create_matakuliah_duplicate (MataKuliahSchema.mk "C1" "Aljabar" 4)
           sample_db Hcols Hin).
Defined.

(** X12.  [create_krs] for a student, a course or a grade that has no row
    answers with an HTTP error and leaves the database as it was, when the
    three texts submitted fit their columns, so that they are compared as
    they are. *)
Theorem create_krs_missing_reference (nextval : DB -> Z) (krs0 : KRSSchema.t) (db : DB) :
  (char_length (KRSSchema.nim krs0) <= 10)%nat ->
  (char_length (KRSSchema.kode_mk krs0) <= 10)%nat ->
  (char_length (KRSSchema.nilai krs0) <= 2)%nat ->
  KRSSchema.nim krs0 ∉ (Mahasiswa.nim <$> mahasiswa db)
  \/ KRSSchema.kode_mk krs0 ∉ (MataKuliah.kode_mk <$> mata_kuliah db)
  \/ KRSSchema.nilai krs0 ∉ (BobotNilai.nilai <$> bobot_nilai db) ->
  exists d, create_krs nextval krs0 db = (Http 500 d, db).
Proof.
  intros Hn Hk Hg Hmiss.
  destruct (create_krs nextval krs0 db) as [r db'] eqn:Hc.
  destruct (create_krs_cases _ _ _ _ _ Hc)
    as [[[d ->] ->]|(stored & Hst & _ & _ & _ & Hs & Hc' & Hg')]; [eauto|].
  exfalso. apply store_krs_Return in Hst as (_ & Hsn & Hsk & Hsg & _).
  cbn in Hsn, Hsk, Hsg.
  rewrite (store_varchar_fits _ _ Hn) in Hsn.
  rewrite (store_varchar_fits _ _ Hk) in Hsk.
  rewrite (store_varchar_fits _ _ Hg) in Hsg. cbn in Hsg.
  injection Hsn as Hsn. injection Hsk as Hsk. injection Hsg as Hsg.
  rewrite <- Hsn in Hs. rewrite <- Hsk in Hc'. rewrite <- Hsg in Hg'. tauto.
Qed.

Lemma create_krs_missing_reference_witness :
  (char_length "S1" <= 10)%nat /\ (char_length "C1" <= 10)%nat /\
  (char_length "E" <= 2)%nat /\
  ("E" ∉ BobotNilai.nilai <$> bobot_nilai sample_db) /\
  exists d,
    create_krs (fun db => 1 + Z.of_nat (length (krs db)))
      (KRSSchema.mk "S1" "C1" "E" 1) sample_db
    = (Http 500 d, sample_db).
Proof.
  assert (Hg : "E" ∉ BobotNilai.nilai <$> bobot_nilai sample_db)
    by (apply (bool_decide_unpack _); vm_compute; exact I).
  assert (H1 : (char_length "S1" <= 10)%nat) by (vm_compute; lia).
  assert (H2 : (char_length "C1" <= 10)%nat) by (vm_compute; lia).
  assert (H3 : (char_length "E" <= 2)%nat) by (vm_compute; lia).
  split; [exact H1|]. split; [exact H2|]. split; [exact H3|]. split; [exact Hg|].
  apply (create_krs_missing_reference _ (KRSSchema.mk "S1" "C1" "E" 1) sample_db H1 H2 H3).
  right. right. exact Hg.
Defined.

(** An enrollment for a nim of ten characters and a blank is stored under
    the ten characters: the student of that nim is the one referred to. *)
Example create_krs_blank_padded_nim :
  let db := with_mahasiswa sample_db
              (mahasiswa sample_db ++ [Mahasiswa.mk "1234567890" "Sari" None None]) in
  ("1234567890 " ∉ Mahasiswa.nim <$> mahasiswa db) /\
  exists c db',
    create_krs (fun _ => 10) (KRSSchema.mk "1234567890 " "C1" "A" 1) db = (Ok c, db') /\
    data c = KRS.mk 10 "1234567890" "C1" (Some "A") (Some 1).
Proof.
  split; [apply (bool_decide_unpack _); vm_compute; exact I|].
  eexists _, _. split; [vm_compute; reflexivity|]. reflexivity.
Qed.

(** ** Inserts keep the keys *)

Lemma columns_ok_with_mahasiswa (db : DB) (row : Mahasiswa.t) :
  columns_ok db -> mahasiswa_ok row ->
  columns_ok (with_mahasiswa db (mahasiswa db ++ [row])).
Proof.
  intros (H1 & H2 & H3 & H4) Hrow. unfold columns_ok.
  cbn [with_mahasiswa mahasiswa mata_kuliah krs bobot_nilai].
  repeat split; try assumption.
  apply Forall_app. split; [exact H1|]. constructor; [exact Hrow|constructor].
Qed.

(** X13.  [create_mahasiswa] keeps primary keys unique, every column of
    every row within its SQL type (the year of a new student fits an
    INTEGER, its texts fit their columns) and foreign keys intact, whatever
    is submitted and whatever the answer: success, an error before the
    commit, or an error after it. *)
Theorem create_mahasiswa_keeps_integrity (mhs : MahasiswaSchema.t) (db db' : DB)
    (r : response (created Mahasiswa.t)) :
  schema_ok db -> columns_ok db -> fk_ok db ->
  create_mahasiswa mhs db = (r, db') ->
  schema_ok db' /\ columns_ok db' /\ fk_ok db'.
Proof.
  intros Hok Hcols Hfk Hc.
  destruct (create_mahasiswa_cases _ _ _ _ Hc)
    as [[_ ->]|(stored & Hst & Hnew & -> & _)]; [auto|].
  destruct (insert_mahasiswa_row_integrity db stored Hok Hfk Hnew) as [Hok' Hfk'].
  split; [exact Hok'|]. split; [|exact Hfk'].
  apply columns_ok_with_mahasiswa; [exact Hcols|].
  apply store_mahasiswa_Return in Hst as (_ & _ & Hrow). exact Hrow.
Qed.

(** X14.  [create_matakuliah] keeps primary keys unique, credit units
    within INTEGER (those of a new course fit), ids within BIGINT and
    foreign keys intact, whatever is submitted and whether or not it
    succeeds. *)
Theorem create_matakuliah_keeps_integrity (mk : MataKuliahSchema.t) (db db' : DB)
    (r : response (created MataKuliah.t)) :
  schema_ok db -> fk_ok db ->
  create_matakuliah mk db = (r, db') ->
  schema_ok db' /\ fk_ok db'.
Proof.
  intros Hok Hfk Hc.
  destruct (create_matakuliah_cases _ _ _ _ Hc)
    as [[_ ->]|(stored & Hst & Hnew & -> & _)]; [auto|].
  apply insert_mata_kuliah_row_integrity; try assumption.
  apply store_mata_kuliah_Return in Hst as (_ & _ & _ & _ & Hsks). exact Hsks.
Qed.

(** X15.  [create_krs] keeps primary keys unique, credit units within
    INTEGER, ids within BIGINT and foreign keys intact, provided the id
    that the sequence assigns is a BIGINT: in particular a request never
    adds an enrollment that refers to a missing student, course or
    grade. *)
Theorem create_krs_keeps_integrity (nextval : DB -> Z) (krs0 : KRSSchema.t) (db db' : DB)
    (r : response (created KRS.t)) :
  schema_ok db -> fk_ok db -> int8 (nextval db) ->
  create_krs nextval krs0 db = (r, db') ->
  schema_ok db' /\ fk_ok db'.
Proof.
  intros Hok Hfk Hid Hc.
  destruct (create_krs_cases _ _ _ _ _ Hc)
    as [[_ ->]|(stored & Hst & _ & -> & Hnew & Href)]; [auto|].
  apply insert_krs_row_integrity; try assumption.
  apply store_krs_Return in Hst as (-> & _). exact Hid.
Qed.

(** X23.  [create_matakuliah] and [create_krs] keep every column of every
    row within its SQL type, as [create_mahasiswa] does: what the store
    holds after a call, whatever was submitted and whatever the answer, are
    texts within their String(n) length and without NUL, and integers
    within INTEGER (BIGINT for the id, provided the sequence assigns
    one). *)
Theorem create_keeps_column_types (nextval : DB -> Z) (db : DB) :
  columns_ok db ->
  (forall mk r db', create_matakuliah mk db = (r, db') -> columns_ok db') /\
  (forall krs0 r db',
     int8 (nextval db) -> create_krs nextval krs0 db = (r, db') -> columns_ok db').
Proof.
  intros Hcols. split.
  - intros mk r db' Hc.
    destruct (create_matakuliah_cases _ _ _ _ Hc)
      as [[_ ->]|(stored & Hst & _ & -> & _)]; [exact Hcols|].
    destruct Hcols as (H1 & H2 & H3 & H4). unfold columns_ok.
    cbn [with_mata_kuliah mahasiswa mata_kuliah krs bobot_nilai].
    repeat split; try assumption.
    apply Forall_app. split; [exact H2|].
    apply store_mata_kuliah_Return in Hst as (_ & _ & Hrow).
    constructor; [exact Hrow|constructor].
  - intros krs0 r db' Hid Hc.
    destruct (create_krs_cases _ _ _ _ _ Hc)
      as [[_ ->]|(stored & Hst & _ & -> & _)]; [exact Hcols|].
    destruct Hcols as (H1 & H2 & H3 & H4). unfold columns_ok.
    cbn [with_krs mahasiswa mata_kuliah krs bobot_nilai].
    repeat split; try assumption.
    apply Forall_app. split; [exact H3|].
    apply store_krs_Return in Hst as (Hidst & _ & _ & _ & _ & Hn & Hk & Hg & Hs).
    constructor; [|constructor]. unfold krs_ok. rewrite Hidst. cbn. auto.
Qed.

Lemma create_keeps_column_types_witness :
  columns_ok sample_db /\ int8 10 /\
  exists c db',
    create_krs (fun _ => 10) (KRSSchema.mk "S1" "C4" "A- " 3) sample_db = (Ok c, db') /\
    data c = KRS.mk 10 "S1" "C4" (Some "A-") (Some 3) /\
    columns_ok db'.
Proof.
  assert (Hcols : columns_ok sample_db)
    by (apply (bool_decide_unpack _); vm_compute; exact I).
  assert (Hid : int8 10) by (unfold int8; lia).
  split; [exact Hcols|]. split; [exact Hid|].
  eexists _, _. split; [vm_compute; reflexivity|]. split; [reflexivity|].
  eapply (proj2 (create_keeps_column_types (fun _ => 10) sample_db Hcols)
            (KRSSchema.mk "S1" "C4" "A- " 3) _ _ Hid).
  vm_compute. reflexivity.
Defined.

Lemma create_mahasiswa_keeps_integrity_witness :
  schema_ok sample_db_fk /\ columns_ok sample_db_fk /\ fk_ok sample_db_fk /\
  exists d db',
    create_mahasiswa (MahasiswaSchema.mk "1234567890 " "Sari" "Sipil" 2024) sample_db_fk
    = (Http 500 d, db') /\
    Mahasiswa.nim <$> mahasiswa db' = ["S1"; "1234567890"] /\
    schema_ok db' /\ columns_ok db' /\ fk_ok db'.
Proof.
  assert (Hok : schema_ok sample_db_fk)
    by (apply (bool_decide_unpack _); vm_compute; exact I).
  assert (Hcols : columns_ok sample_db_fk)
    by (apply (bool_decide_unpack _); vm_compute; exact I).
  assert (Hfk : fk_ok sample_db_fk)
    by (apply (bool_decide_unpack _); vm_compute; exact I).
  split; [exact Hok|]. split; [exact Hcols|]. split; [exact Hfk|].
  eexists _, _. split; [vm_compute; reflexivity|]. split; [reflexivity|].
  eapply (create_mahasiswa_keeps_integrity
            (MahasiswaSchema.mk "1234567890 " "Sari" "Sipil" 2024) sample_db_fk _ _
            Hok Hcols Hfk).
  vm_compute. reflexivity.
Defined.

Lemma create_matakuliah_keeps_integrity_witness :
  schema_ok sample_db_fk /\ fk_ok sample_db_fk /\
  exists r db',
    create_matakuliah (MataKuliahSchema.mk "C6" "Kalkulus" 4) sample_db_fk = (r, db') /\
    MataKuliah.kode_mk <$> mata_kuliah db' = ["C1"; "C2"; "C3"; "C4"; "C5"; "C0"; "C6"] /\
    schema_ok db' /\ fk_ok db'.
Proof.
  assert (Hok : schema_ok sample_db_fk)
    by (apply (bool_decide_unpack _); vm_compute; exact I).
  assert (Hfk : fk_ok sample_db_fk)
    by (apply (bool_decide_unpack _); vm_compute; exact I).
  split; [exact Hok|]. split; [exact Hfk|].
  eexists _, _. split; [vm_compute; reflexivity|]. split; [reflexivity|].
  eapply (create_matakuliah_keeps_integrity
            (MataKuliahSchema.mk "C6" "Kalkulus" 4) sample_db_fk _ _ Hok Hfk).
  vm_compute. reflexivity.
Defined.

Lemma create_krs_keeps_integrity_witness :
  schema_ok sample_db_fk /\ fk_ok sample_db_fk /\ int8 10 /\
  exists r db',
    create_krs (fun _ => 10) (KRSSchema.mk "S1" "C4" "B" 3) sample_db_fk = (r, db') /\
    last (krs db') = Some (KRS.mk 10 "S1" "C4" (Some "B") (Some 3)) /\
    schema_ok db' /\ fk_ok db'.
Proof.
  assert (Hok : schema_ok sample_db_fk)
    by (apply (bool_decide_unpack _); vm_compute; exact I).
  assert (Hfk : fk_ok sample_db_fk)
    by (apply (bool_decide_unpack _); vm_compute; exact I).
  assert (Hid : int8 10) by (unfold int8; lia).
  split; [exact Hok|]. split; [exact Hfk|]. split; [exact Hid|].
  eexists _, _. split; [vm_compute; reflexivity|]. split; [reflexivity|].
  eapply (create_krs_keeps_integrity (fun _ => 10)
            (KRSSchema.mk "S1" "C4" "B" 3) sample_db_fk _ _ Hok Hfk Hid).
  vm_compute. reflexivity.
Defined.

(** ** Insert, then read *)

(** X16.  In a database whose rows satisfy their column types, after
    [create_mahasiswa] has succeeded, [get_mahasiswa] on the submitted nim
    answers with the row that the insert reported; that row is what the
    store holds for the submitted fields, which is the submitted fields
    themselves when they fit their columns; and the answer for every other
    nim is what it was. *)
Theorem create_then_get_mahasiswa (mhs : MahasiswaSchema.t) (db db' : DB)
    (c : created Mahasiswa.t) :
  let row := Mahasiswa.mk (MahasiswaSchema.nim mhs) (MahasiswaSchema.nama mhs)
               (Some (MahasiswaSchema.jurusan mhs))
               (Some (MahasiswaSchema.angkatan mhs)) in
  columns_ok db ->
  create_mahasiswa mhs db = (Ok c, db') ->
  get_mahasiswa (MahasiswaSchema.nim mhs) db' = Ok (data c) /\
  store_mahasiswa row = Return (data c) /\
  (mahasiswa_ok row -> data c = row) /\
  (forall nim, nim <> MahasiswaSchema.nim mhs ->
     get_mahasiswa nim db' = get_mahasiswa nim db).
Proof.
  intros row (Hcols & _) Hc.
  destruct (create_mahasiswa_Ok _ _ _ _ Hcols Hc) as (Hst & Hnim & Hnew & ->).
  split; [|split; [exact Hst|split]].
  - unfold get_mahasiswa, first_mahasiswa. cbn [with_mahasiswa mahasiswa].
    rewrite head_filter_snoc, head_filter_None.
    + rewrite decide_True by exact Hnim. reflexivity.
    + intros y Hy Hynim. apply Hnew. rewrite <- Hynim. apply list_elem_of_fmap. eauto.
  - intros Hrow. apply store_mahasiswa_id in Hrow. fold row in Hst. congruence.
  - intros nim Hne. unfold get_mahasiswa, first_mahasiswa.
    cbn [with_mahasiswa mahasiswa]. rewrite head_filter_snoc.
    destruct (head (filter _ (mahasiswa db))); [reflexivity|].
    rewrite decide_False by congruence. reflexivity.
Qed.

Lemma create_then_get_mahasiswa_witness :
  columns_ok sample_db /\
  exists c db',
    create_mahasiswa (MahasiswaSchema.mk "S2" "Sari" "Sipil" 2024) sample_db = (Ok c, db') /\
    get_mahasiswa "S2" db' = Ok (Mahasiswa.mk "S2" "Sari" (Some "Sipil") (Some 2024)) /\
    get_mahasiswa "S1" db' = get_mahasiswa "S1" sample_db.
Proof.
  assert (Hcols : columns_ok sample_db)
    by (apply (bool_decide_unpack _); vm_compute; exact I).
  split; [exact Hcols|].
  assert (Hc : exists c db',
    create_mahasiswa (MahasiswaSchema.mk "S2" "Sari" "Sipil" 2024) sample_db = (Ok c, db'))
    by (eexists _, _; vm_compute; reflexivity).
  destruct Hc as (c & db' & Hc). exists c, db'. split; [exact Hc|].
  destruct (create_then_get_mahasiswa _ _ _ _ Hcols Hc) as (Hget & _ & Hdata & Hother).
  cbn in Hget. split.
  - rewrite Hget. f_equal. apply Hdata.
    apply (bool_decide_unpack _). vm_compute. exact I.
  - apply Hother. discriminate.
Defined.

(** X17.  In a database whose rows satisfy their column types, after
    [create_matakuliah] has succeeded, the course listing holds the course
    that the insert reported and every course it held before, and nothing
    else; the course reported is what the store holds for the submitted
    fields, which is the submitted fields themselves when they fit their
    columns. *)
Theorem create_then_list_matakuliah (mk : MataKuliahSchema.t) (db db' : DB)
    (c : created MataKuliah.t) :
  let row := MataKuliah.mk (MataKuliahSchema.kode_mk mk) (MataKuliahSchema.nama_mk mk)
               (MataKuliahSchema.sks mk) in
  columns_ok db ->
  create_matakuliah mk db = (Ok c, db') ->
  exists rows rows',
    get_all_matakuliah db = Ok rows /\
    get_all_matakuliah db' = Ok rows' /\
    rows' ≡ₚ data c :: rows /\
    store_mata_kuliah row = Return (data c) /\
    (mata_kuliah_ok row -> data c = row).
Proof.
  intros row (_ & Hcols & _) Hc.
  destruct (create_matakuliah_Ok _ _ _ _ Hcols Hc) as (Hst & _ & _ & ->).
  eexists _, _. split; [reflexivity|]. split; [reflexivity|].
  split; [|split; [exact Hst|]].
  - cbn [with_mata_kuliah mata_kuliah].
    rewrite !order_by_code_Permutation. rewrite Permutation_app_comm. reflexivity.
  - intros Hrow. apply store_mata_kuliah_id in Hrow. fold row in Hst. congruence.
Qed.

Lemma create_then_list_matakuliah_witness :
  columns_ok sample_db /\
  exists c db' rows',
    create_matakuliah (MataKuliahSchema.mk "C6" "Kalkulus" 4) sample_db = (Ok c, db') /\
    get_all_matakuliah db' = Ok rows' /\
    MataKuliah.kode_mk <$> rows' = ["C0"; "C1"; "C2"; "C3"; "C4"; "C5"; "C6"].
Proof.
  assert (Hcols : columns_ok sample_db)
    by (apply (bool_decide_unpack _); vm_compute; exact I).
  split; [exact Hcols|].
  assert (Hc : exists c db',
    create_matakuliah (MataKuliahSchema.mk "C6" "Kalkulus" 4) sample_db = (Ok c, db'))
    by (eexists _, _; vm_compute; reflexivity).
  destruct Hc as (c & db' & Hc).
  destruct (create_then_list_matakuliah _ _ _ _ Hcols Hc) as (rows & rows' & _ & Hget & _).
  exists c, db', rows'. split; [exact Hc|]. split; [exact Hget|].
  vm_compute in Hc. injection Hc as _ <-.
  vm_compute in Hget. injection Hget as <-. reflexivity.
Defined.

(** X18.  After [create_krs] has succeeded, the enrollment that the insert
    reported is what the store holds for the submitted fields under the id
    that the store assigned (the submitted fields themselves, when they fit
    their columns), and the listing of its student, without a term or with
    the term of the new enrollment, shows it. *)
Theorem create_then_get_krs (nextval : DB -> Z) (krs0 : KRSSchema.t) (db db' : DB)
    (c : created KRS.t) (semester : option Z) :
  let row := KRS.mk (nextval db) (KRSSchema.nim krs0) (KRSSchema.kode_mk krs0)
               (Some (KRSSchema.nilai krs0)) (Some (KRSSchema.semester krs0)) in
  create_krs nextval krs0 db = (Ok c, db') ->
  semester = None \/ semester = Some (KRSSchema.semester krs0) ->
  store_krs row = Return (data c) /\
  (varchar 10 (KRSSchema.nim krs0) -> varchar 10 (KRSSchema.kode_mk krs0) ->
   varchar 2 (KRSSchema.nilai krs0) -> data c = row) /\
  exists rows d,
    get_krs (KRS.nim (data c)) semester db' = Ok rows /\
    d ∈ rows /\ enrollment_of d = data c.
Proof.
  intros row Hc Hsem.
  destruct (create_krs_cases _ _ _ _ _ Hc)
    as [[[d [=]] _]|(stored & Hst & [= ->] & -> & _ & Hs & Hk & _)].
  cbn [data]. split; [exact Hst|]. split.
  - intros Hn Hkode Hg.
    pose proof (store_krs_Return _ _ Hst)
      as (_ & _ & _ & _ & Hsemeq & _ & _ & _ & Hsem4).
    rewrite Hsemeq in Hsem4.
    pose proof (store_krs_id row Hn Hkode Hg Hsem4) as Hid.
    fold row in Hst. congruence.
  - apply list_elem_of_fmap in Hs as (m & Hnim & Hm).
    apply list_elem_of_fmap in Hk as (mk & Hkode & Hmk).
    destruct (proj2 (elem_of_get_krs (KRS.nim stored) semester
                       (with_krs db (krs db ++ [stored])) (krs_row (stored, m, mk))))
      as (rows & Hrows & Hd).
    { exists stored, m, mk. cbn [with_krs krs mahasiswa mata_kuliah].
      split; [apply elem_of_app; right; apply list_elem_of_here|].
      repeat split; try assumption.
      intros Ht. apply store_krs_Return in Hst as (_ & _ & _ & _ & -> & _). cbn.
      destruct Hsem as [-> | ->]; [discriminate Ht|reflexivity]. }
    exists rows, (krs_row (stored, m, mk)). split; [exact Hrows|]. split; [exact Hd|].
    unfold enrollment_of, krs_row. cbn. rewrite <- Hkode. destruct stored; reflexivity.
Qed.

Lemma create_then_get_krs_witness :
  exists c db' rows d,
    create_krs (fun _ => 10) (KRSSchema.mk "S1" "C4" "B" 3) sample_db = (Ok c, db') /\
    get_krs "S1" (Some 3) db' = Ok rows /\
    d ∈ rows /\ enrollment_of d = KRS.mk 10 "S1" "C4" (Some "B") (Some 3).
Proof.
  assert (Hc : exists c db',
    create_krs (fun _ => 10) (KRSSchema.mk "S1" "C4" "B" 3) sample_db = (Ok c, db'))
    by (eexists _, _; vm_compute; reflexivity).
  destruct Hc as (c & db' & Hc).
  destruct (create_then_get_krs _ _ _ _ _ (Some 3) Hc)
    as (_ & Hdata & rows & d & Hget & Hd & He); [right; reflexivity|].
  assert (Hrow : data c = KRS.mk 10 "S1" "C4" (Some "B") (Some 3)).
  { apply Hdata; apply (bool_decide_unpack _); vm_compute; exact I. }
  exists c, db', rows, d. rewrite Hrow in Hget, He. auto.
Defined.

(** X19.  After [create_krs] has succeeded on a database with unique keys,
    credit units and ids in range and intact foreign keys, [calculate_ips]
    for the student and the term of the enrollment that the insert reported
    answers with a payload, not with 404, whatever the order in which the
    store returns the rows, and the grade of that enrollment, which is not
    NULL, is among its detail rows. *)
Theorem create_krs_then_calculate_ips (nextval : DB -> Z) (krs0 : KRSSchema.t)
    (db db' : DB) (c : created KRS.t) (results : list IPSRow.t) :
  schema_ok db -> fk_ok db -> int8 (nextval db) ->
  create_krs nextval krs0 db = (Ok c, db') ->
  ips_query_returns db' (KRS.nim (data c)) (KRSSchema.semester krs0) results ->
  KRS.semester (data c) = Some (KRSSchema.semester krs0) /\
  is_Some (KRS.nilai (data c)) /\
  exists payload,
    calculate_ips (IPSRequest.mk (KRS.nim (data c)) (KRSSchema.semester krs0)) db' results
      = Ok payload /\
    KRS.nilai (data c) ∈ (IPSDetail.nilai <$> IPSData.details payload).
Proof.
  intros Hok Hfk Hid Hc Hp.
  destruct (create_krs_cases _ _ _ _ _ Hc)
    as [[[d [=]] _]|(stored & Hst & [= ->] & -> & Hnew & Href)].
  cbn [data] in *.
  pose proof (store_krs_grade _ _ Hst ltac:(cbn; eauto)) as [g Hgrade].
  apply store_krs_Return in Hst as (Hidst & _ & _ & _ & Hsem & _). cbn in Hidst, Hsem.
  destruct (insert_krs_row_integrity db stored Hok Hfk) as [Hok' _];
    [rewrite Hidst; exact Hid|exact Hnew|exact Href|].
  split; [exact Hsem|]. split; [eauto|].
  destruct Href as (_ & Hk & Hg). rewrite Hgrade in Hg.
  apply list_elem_of_fmap in Hk as (mk & Hkode & Hmk).
  apply list_elem_of_fmap in Hg as (bn & Hbng & Hbn).
  set (request := IPSRequest.mk (KRS.nim stored) (KRSSchema.semester krs0)).
  set (db' := with_krs db (krs db ++ [stored])) in *.
  assert (Hin : IPSRow.mk (MataKuliah.sks mk) (BobotNilai.bobot bn)
                  (MataKuliah.nama_mk mk) (KRS.nilai stored)
                ∈ results).
  { unfold ips_query_returns in Hp. rewrite Hp.
    apply elem_of_ips_query. exists stored, mk, bn. subst db'.
    cbn [with_krs krs mata_kuliah bobot_nilai].
    split; [apply elem_of_app; right; apply list_elem_of_here|].
    repeat split; congruence. }
  assert (Hne : results <> []).
  { intros Hnil. rewrite Hnil in Hin. inversion Hin. }
  eexists. split; [apply (calculate_ips_ok request db' results Hok' Hp Hne)|].
  cbn [ips_payload IPSData.details]. rewrite <- list_fmap_compose.
  apply list_elem_of_fmap. eexists. split; [|exact Hin]. reflexivity.
Qed.

Lemma create_krs_then_calculate_ips_witness :
  schema_ok sample_db_fk /\ fk_ok sample_db_fk /\ int8 10 /\
  exists c db' payload,
    create_krs (fun _ => 10) (KRSSchema.mk "S1" "C4" "B" 3) sample_db_fk = (Ok c, db') /\
    ips_query_returns db' (KRS.nim (data c)) 3 (ips_query db' "S1" 3) /\
    calculate_ips (IPSRequest.mk (KRS.nim (data c)) 3) db' (ips_query db' "S1" 3)
      = Ok payload /\
    (KRS.nilai (data c) ∈ IPSDetail.nilai <$> IPSData.details payload).
Proof.
  assert (Hok : schema_ok sample_db_fk)
    by (apply (bool_decide_unpack _); vm_compute; exact I).
  assert (Hfk : fk_ok sample_db_fk)
    by (apply (bool_decide_unpack _); vm_compute; exact I).
  assert (Hid : int8 10) by (unfold int8; lia).
  split; [exact Hok|]. split; [exact Hfk|]. split; [exact Hid|].
  assert (Hc : exists c db',
    create_krs (fun _ => 10) (KRSSchema.mk "S1" "C4" "B" 3) sample_db_fk = (Ok c, db') /\
    KRS.nim (data c) = "S1").
  { eexists _, _. split; [vm_compute; reflexivity|]. reflexivity. }
  destruct Hc as (c & db' & Hc & Hnim).
  assert (Hp : ips_query_returns db' (KRS.nim (data c)) 3 (ips_query db' "S1" 3)).
  { rewrite Hnim. unfold ips_query_returns. reflexivity. }
  destruct (create_krs_then_calculate_ips (fun _ => 10) _ _ _ _ _ Hok Hfk Hid Hc Hp)
    as (_ & _ & payload & Hdata & Hin).
  exists c, db', payload. auto.
Defined.


(** ** Database status *)

Lemma append_cons (a : Ascii.ascii) (s t : string) :
  String a s +:+ t = String a (s +:+ t).
Proof. reflexivity. Qed.

Lemma append_nil_l (t : string) : EmptyString +:+ t = t.
Proof. reflexivity. Qed.

Lemma append_snoc (cur : string) (c : Ascii.ascii) (w : string) :
  (cur +:+ String c EmptyString) +:+ w = cur +:+ String c w.
Proof.
  induction cur as [|a cur IH]; [reflexivity|].
  rewrite !append_cons, IH. reflexivity.
Qed.

Lemma append_empty_r (s : string) : s +:+ EmptyString = s.
Proof.
  induction s as [|a s IH]; [reflexivity|]. rewrite append_cons, IH. reflexivity.
Qed.

Lemma no_space_snoc (cur : string) (c : Ascii.ascii) :
  no_space cur = true -> py_isspace c = false ->
  no_space (cur +:+ String c EmptyString) = true.
Proof.
  intros Hcur Hc. induction cur as [|a cur IH].
  - rewrite append_nil_l. cbn. rewrite Hc. reflexivity.
  - rewrite append_cons. cbn in *.
    apply andb_true_iff in Hcur as [Ha Hcur]. rewrite Ha, (IH Hcur). reflexivity.
Qed.

(** Reading a word: its characters join the current run. *)
Lemma py_split_go_word (cur w s : string) :
  no_space w = true -> py_split_go cur (w +:+ s) = py_split_go (cur +:+ w) s.
Proof.
  revert cur. induction w as [|c w IH]; intros cur Hw.
  - rewrite append_nil_l, append_empty_r. reflexivity.
  - rewrite append_cons. cbn [py_split_go]. cbn in Hw.
    apply andb_true_iff in Hw as [Hc Hw].
    apply negb_true_iff in Hc. rewrite Hc, (IH _ Hw), append_snoc. reflexivity.
Qed.

Lemma py_split_go_words (cur s : string) :
  no_space cur = true ->
  Forall (fun w => w <> EmptyString /\ no_space w = true) (py_split_go cur s).
Proof.
  revert cur. induction s as [|c s IH]; intros cur Hcur; cbn.
  - destruct cur; repeat constructor; [discriminate|exact Hcur].
  - destruct (py_isspace c) eqn:Hc.
    + destruct cur; [apply IH; reflexivity|].
      constructor; [split; [discriminate|exact Hcur]|apply IH; reflexivity].
    + apply IH, no_space_snoc; assumption.
Qed.

(** X20.  The [version] of [database_status] has at most two entries, and
    each is a non-empty text without whitespace. *)
Theorem database_status_version_words (server_version : string) (db : DB) :
  (length (DBStatus.version (database_status server_version db)) <= 2)%nat /\
  Forall (fun w => w <> EmptyString /\ no_space w = true)
    (DBStatus.version (database_status server_version db)).
Proof.
  cbn [database_status DBStatus.version]. split.
  - rewrite length_take. lia.
  - apply Forall_take, py_split_go_words. reflexivity.
Qed.

(** X21.  When the text the store answers begins with two words, each
    followed by a blank, those two words are the [version] shown. *)
Theorem database_status_version_prefix (w1 w2 rest : string) (db : DB) :
  no_space w1 = true -> w1 <> EmptyString ->
  no_space w2 = true -> w2 <> EmptyString ->
  DBStatus.version
    (database_status (w1 +:+ String Ascii.Space (w2 +:+ String Ascii.Space rest)) db)
  = [w1; w2].
Proof.
  intros H1 N1 H2 N2. cbn [database_status DBStatus.version]. unfold py_split.
  rewrite (py_split_go_word _ w1 _ H1), append_nil_l. cbn [py_split_go].
  change (py_isspace Ascii.Space) with true. cbn match.
  destruct w1 as [|a1 w1]; [congruence|].
  rewrite (py_split_go_word _ w2 _ H2), append_nil_l. cbn [py_split_go].
  change (py_isspace Ascii.Space) with true. cbn match.
  destruct w2 as [|a2 w2]; [congruence|]. reflexivity.
Qed.

Lemma database_status_version_prefix_witness :
  no_space "PostgreSQL" = true /\ no_space "15.3" = true /\
  DBStatus.version
    (database_status "PostgreSQL 15.3 on x86_64-pc-linux-gnu, compiled by gcc" sample_db)
  = ["PostgreSQL"; "15.3"].
Proof.
  split; [reflexivity|]. split; [reflexivity|].
  apply (database_status_version_prefix "PostgreSQL" "15.3"
           "on x86_64-pc-linux-gnu, compiled by gcc" sample_db);
    (reflexivity || discriminate).
Defined.

(** X22.  The counters of [database_status] follow the inserts.  A call of
    [create_mahasiswa], [create_matakuliah] or [create_krs] leaves the
    counters of the other two tables; a successful call raises its own
    counter by one; a failed [create_krs] leaves its counter; a failed
    [create_mahasiswa] or [create_matakuliah] either leaves the database as
    it was or, when the error comes after the commit, has raised its
    counter by one. *)
Theorem database_status_counts_inserts (nextval : DB -> Z) (server_version : string)
    (db : DB) :
  let count db := DBStatus.statistics_ (database_status server_version db) in
  let bump (ok : bool) (n : Z) := if ok then n + 1 else n in
  let is_ok {A} (r : response A) := match r with Ok _ => true | Http _ _ => false end in
  (forall mhs r db', create_mahasiswa mhs db = (r, db') ->
     DBStatus.total_mata_kuliah (count db') = DBStatus.total_mata_kuliah (count db) /\
     DBStatus.total_krs (count db') = DBStatus.total_krs (count db) /\
     (is_ok r = true ->
      DBStatus.total_mahasiswa (count db') = DBStatus.total_mahasiswa (count db) + 1) /\
     (is_ok r = false ->
      db' = db \/
      DBStatus.total_mahasiswa (count db') = DBStatus.total_mahasiswa (count db) + 1)) /\
  (forall mk r db', create_matakuliah mk db = (r, db') ->
     DBStatus.total_mahasiswa (count db') = DBStatus.total_mahasiswa (count db) /\
     DBStatus.total_krs (count db') = DBStatus.total_krs (count db) /\
     (is_ok r = true ->
      DBStatus.total_mata_kuliah (count db') = DBStatus.total_mata_kuliah (count db) + 1) /\
     (is_ok r = false ->
      db' = db \/
      DBStatus.total_mata_kuliah (count db') = DBStatus.total_mata_kuliah (count db) + 1)) /\
  (forall krs0 r db', create_krs nextval krs0 db = (r, db') ->
     count db' = DBStatus.mk_statistics
                   (DBStatus.total_mahasiswa (count db))
                   (DBStatus.total_mata_kuliah (count db))
                   (bump (is_ok r) (DBStatus.total_krs (count db)))).
Proof.
  cbn zeta. split; [|split].
  - intros mhs r db' Hc.
    destruct (create_mahasiswa_cases _ _ _ _ Hc)
      as [[[d ->] ->]|(row & _ & _ & -> & _)]; cbn.
    + repeat split; [discriminate|auto].
    + rewrite length_app. cbn. repeat split; intros _; [|right]; lia.
  - intros mk r db' Hc.
    destruct (create_matakuliah_cases _ _ _ _ Hc)
      as [[[d ->] ->]|(row & _ & _ & -> & _)]; cbn.
    + repeat split; [discriminate|auto].
    + rewrite length_app. cbn. repeat split; intros _; [|right]; lia.
  - intros krs0 r db' Hc.
    destruct (create_krs_cases _ _ _ _ _ Hc) as [[[d ->] ->]|(row & _ & -> & -> & _)];
      cbn; [reflexivity|].
    rewrite length_app. cbn. f_equal. lia.
Qed.

Lemma database_status_counts_inserts_witness :
  exists d db',
    create_mahasiswa (MahasiswaSchema.mk "1234567890 " "Sari" "Sipil" 2024) sample_db
    = (Http 500 d, db') /\
    DBStatus.statistics_ (database_status "PostgreSQL 15.3 " sample_db)
      = DBStatus.mk_statistics 1 6 9 /\
    DBStatus.total_mata_kuliah (DBStatus.statistics_ (database_status "PostgreSQL 15.3 " db'))
      = 6 /\
    DBStatus.total_mahasiswa (DBStatus.statistics_ (database_status "PostgreSQL 15.3 " db'))
      = 2.
Proof.
  eexists _, _. split; [vm_compute; reflexivity|]. split; [reflexivity|].
  destruct (database_status_counts_inserts (fun _ => 10) "PostgreSQL 15.3 " sample_db)
    as (Hmhs & _ & _).
  destruct (Hmhs (MahasiswaSchema.mk "1234567890 " "Sari" "Sipil" 2024) _ _
              ltac:(vm_compute; reflexivity)) as (Hmk & _ & _ & _).
  split; [rewrite Hmk; reflexivity|reflexivity].
Defined.
